(** * MOVPE summary generator: a shallow embedding of [script.py]

    The script reads five sheets of one experiment workbook, extracts a fixed
    list of fields, computes a growth rate and appends the resulting row to a
    summary workbook in the working directory.  The embedding follows the
    source function by function:

    - [fill_column]           (script.py, lines 11-30)
    - [fill_calculated_cell]  (script.py, lines 33-48)
    - [write_excel_file]      (script.py, lines 51-63)
    - [generate_overview]     (script.py, lines 66-121)

    Pandas data frames are ordered lists of named columns, Python exceptions
    are an error monad, the working directory is a finite map from file names
    to the table stored in the file. *)

From Stdlib Require Import ZArith String Ascii.
From Stdlib Require Import Floats.PrimFloat Floats.SpecFloat Floats.FloatOps Floats.FloatAxioms.
From Stdlib Require Import Numbers.DecimalString Numbers.DecimalNat.
From stdpp Require Import base option list strings gmap fin_maps.

Local Open Scope string_scope.
Local Open Scope list_scope.

(** ** Python values and exceptions *)

(** A scalar cell of a sheet read by [pd.read_excel].  Text is a [string]
    whose characters are Latin-1 code points (one [ascii] per character).
    [Obj repr] is any other non-null scalar (integer, float, timestamp,
    boolean): the script only ever asks such a cell for its [str()]
    presentation, which is what the constructor carries. *)
Inductive cell : Type :=
| Null                      (* NaN / None / NaT: what [isnull] answers True on *)
| Str (s : string)
| Obj (repr : string).

(** A value held by [summary_data] and by the summary table: a scalar as it
    was read or produced, or the float64 computed by [fill_calculated_cell]. *)
Inductive value : Type :=
| Raw (c : cell)
| Float (f : float).

Inductive exn : Type :=
| KeyError (key : string)
| AttributeError
| ValueError.

Inductive result (A : Type) : Type :=
| Ok (a : A)
| Raise (e : exn).
Arguments Ok {A} a.
Arguments Raise {A} e.

#[global] Instance result_ret : MRet result := fun _ a => Ok a.
#[global] Instance result_bind : MBind result := fun _ _ f r =>
  match r with
  | Ok a => f a
  | Raise e => Raise e
  end.

Definition isnull (c : cell) : bool :=
  match c with
  | Null => true
  | _ => false
  end.

(** [str(c)].  The script calls it on non-null cells only. *)
Definition py_str (c : cell) : string :=
  match c with
  | Null => "nan"
  | Str s => s
  | Obj repr => repr
  end.

(** ** Data frames *)

(** A data frame is the ordered list of its columns: label and cells, the
    cell at position [i] being the one of row label [i] (default range
    index).  Labels are text.  A sheet whose header row holds a number or a
    date has a label that is no [str]; such sheets are outside these frames
    (on such a label the test [quantity in growthrun_header] of line 97
    raises [TypeError]). *)
Abbreviation frame A := (list (string * list A)).

Definition column_names {A} (df : frame A) : list string := df.*1.

(** [df.get(h)]: the first column labelled [h]. *)
Fixpoint find_column {A} (df : frame A) (h : string) : option (list A) :=
  match df with
  | [] => None
  | (k, col) :: df' => if String.eqb k h then Some col else find_column df' h
  end.

(** [df[h]]: raises [KeyError] when no column is labelled [h]. *)
Definition getitem {A} (df : frame A) (h : string) : result (list A) :=
  match find_column df h with
  | Some col => Ok col
  | None => Raise (KeyError h)
  end.

(** [df.shape]. *)
Definition ncols {A} (df : frame A) : nat := length df.
Definition nrows {A} (df : frame A) : nat :=
  match df with
  | [] => 0
  | (_, col) :: _ => length col
  end.

(** Frames as pandas builds them: distinct labels, columns of one length. *)
Definition wf_frame {A} (df : frame A) : Prop :=
  NoDup (column_names df) /\ Forall (fun kc => length kc.2 = nrows df) df.

(** ** [fill_column] *)

Definition empty_sentinel : value := Raw (Str "empty").

(** Lines 23-30.  [sheet[header]] is evaluated first and raises on a missing
    label; [.empty] is about the number of rows; [.isnull().values.any()]
    looks at every cell of the column. *)
Definition fill_column (summary : list value) (sheet : frame cell) (header : string)
  : result (list value) :=
  col ← getitem sheet header;
  match col with
  | [] => mret (summary ++ [empty_sentinel])
  | c0 :: _ =>
      if existsb isnull col
      then mret (summary ++ [empty_sentinel])
      else mret (summary ++ [Raw (Str (py_str c0))])
  end.

(** ** [fill_calculated_cell] *)

(** Characters are Latin-1 code points.  [str.isnumeric] accepts the
    characters whose Unicode Numeric_Type is Decimal, Digit or Numeric; in
    Latin-1 these are the digits 0-9, the superscripts U+00B2, U+00B3, U+00B9
    and the fractions U+00BC, U+00BD, U+00BE. *)
Definition code_point (c : ascii) : N := N_of_ascii c.

Definition is_decimal_char (c : ascii) : bool :=
  (48 <=? code_point c)%N && (code_point c <=? 57)%N.

Definition is_numeric_char (c : ascii) : bool :=
  is_decimal_char c
  || bool_decide (code_point c ∈ [178; 179; 185; 188; 189; 190]%N).

Fixpoint all_chars (p : ascii -> bool) (s : string) : bool :=
  match s with
  | EmptyString => true
  | String c s' => p c && all_chars p s'
  end.

Definition nonempty (s : string) : bool :=
  match s with
  | EmptyString => false
  | String _ _ => true
  end.

(** [s.isnumeric()] and [s.isdecimal()]: false on the empty string. *)
Definition isnumeric (s : string) : bool := nonempty s && all_chars is_numeric_char s.
Definition isdecimal (s : string) : bool := nonempty s && all_chars is_decimal_char s.

(** The integer a string of decimal digits denotes. *)
Fixpoint int_of_digits (acc : Z) (s : string) : Z :=
  match s with
  | EmptyString => acc
  | String c s' => int_of_digits (10 * acc + (Z.of_N (code_point c) - 48)) s'
  end.

(** The largest integer [pd.to_numeric] parses: the largest uint64. *)
Definition uint64_max : Z := 2 ^ 64 - 1.

(** The strings [pd.to_numeric] parses to an integer, among those
    [isnumeric] accepts: decimal digits that denote at most [uint64_max]. *)
Definition parses (s : string) : bool :=
  isdecimal s && (int_of_digits 0 s <=? uint64_max)%Z.

(** [pd.to_numeric(s)] for the strings that reach it, those [isnumeric]
    accepts: a string of decimal digits parses to its integer when that fits
    64 bits (int64, or uint64 from 2^63 on); a larger one raises [ValueError]
    (integer out of range), and so does any other string (a superscript, a
    fraction), which cannot be parsed. *)
Definition to_numeric (s : string) : result Z :=
  if parses s then Ok (int_of_digits 0 s) else Raise ValueError.

(** The float64 nearest to an integer (round to nearest, ties to even). *)
Definition float_of_Z (z : Z) : float := SF2Prim (binary_normalize 53 1024 z 0 false).

(** [a / b] on numpy integers: true division in float64; a zero divisor
    gives an infinity or NaN, not an exception. *)
Definition true_divide (a b : Z) : float := PrimFloat.div (float_of_Z a) (float_of_Z b).

(** [v.isnumeric()]: only [str] has the method. *)
Definition isnumeric_method (v : value) : result bool :=
  match v with
  | Raw (Str s) => Ok (isnumeric s)
  | _ => Raise AttributeError
  end.

(** The text of a value that passed [isnumeric_method], hence a [str]. *)
Definition as_text (v : value) : string :=
  match v with
  | Raw c => py_str c
  | Float _ => ""
  end.

(** [df.loc[0, h]] as a read. *)
Definition loc0 (df : frame value) (h : string) : result value :=
  col ← getitem df h;
  match col with
  | [] => Raise (KeyError "0")
  | v :: _ => Ok v
  end.

Definition set_first {A} (v : A) (col : list A) : list A :=
  match col with
  | [] => [v]
  | _ :: col' => v :: col'
  end.

(** [df.loc[0, h] = v]: overwrites the cell of row 0, or adds the column [h]
    at the end (missing in the other rows) when the frame has none. *)
Definition set_loc0 (df : frame value) (h : string) (v : value) : frame value :=
  match find_column df h with
  | Some _ => (fun kc : string * list value =>
                 if String.eqb kc.1 h then (kc.1, set_first v kc.2) else kc) <$> df
  | None => df ++ [(h, v :: replicate (pred (nrows df)) (Raw Null))]
  end.

(** Lines 46-48.  [and] is short-circuit: "Growth Time" is not looked at
    when "Thickness" is not numeric. *)
Definition fill_calculated_cell (dataframe : frame value) : result (frame value) :=
  t ← loc0 dataframe "Thickness";
  tn ← isnumeric_method t;
  if tn : bool then
    g ← loc0 dataframe "Growth Time";
    gn ← isnumeric_method g;
    if gn : bool then
      a ← to_numeric (as_text t);
      b ← to_numeric (as_text g);
      mret (set_loc0 dataframe "Growth Rate" (Float (true_divide a b)))
    else mret dataframe
  else mret dataframe.

(** ** [generate_overview] *)

(** The five sheets [pd.read_excel] returns for the input file. *)
Record workbook : Type := {
  overview : frame cell;
  growth_run : frame cell;
  afm_reflectance_sem : frame cell;
  hrxrd : frame cell;
  sample_cut : frame cell
}.

Definition overview_headers : list string :=
  ["Sample"; "Date"; "Film"; "Substrate"; "Substrate T"; "Carrier Gas"; "Growth Time"].

Definition quantities : list string :=
  ["Bubbler Material"; "Gas Cylinder Material"; "Partial Pressure"].

(** [sub in s] on strings. *)
Fixpoint contains (sub s : string) : bool :=
  String.prefix sub s ||
  match s with
  | EmptyString => false
  | String _ s' => contains sub s'
  end.

(** A [for] loop whose body may raise. *)
Fixpoint for_each {A S} (body : S -> A -> result S) (xs : list A) (st : S) : result S :=
  match xs with
  | [] => Ok st
  | x :: xs' => st' ← body st x; for_each body xs' st'
  end.

(** Lines 97-100: the body of the inner loop, on the pair
    ([summary_headers], [summary_data]). *)
Definition scan_step (gr : frame cell) (growthrun_header : string)
    (st : list string * list value) (quantity : string)
  : result (list string * list value) :=
  if contains quantity growthrun_header then
    let hs := st.1 ++ [growthrun_header] in
    col ← getitem gr growthrun_header;
    match col with
    | [] => mret (hs, st.2)
    | c0 :: _ => mret (hs, st.2 ++ [Raw c0])
    end
  else mret st.

(** Lines 95-100, on a GrowthRun whose labels are text. *)
Definition scan (gr : frame cell) (st : list string * list value)
  : result (list string * list value) :=
  for_each (fun st h => for_each (scan_step gr h) quantities st) (column_names gr) st.

(** Lines 85-105: the header list and the value list. *)
Definition assemble (wb : workbook) : result (list string * list value) :=
  summary_data ← for_each (fun s h => fill_column s (overview wb) h) overview_headers [];
  let summary_headers := overview_headers ++ ["Thickness"; "Growth Rate"] in
  summary_data ← fill_column summary_data (afm_reflectance_sem wb) "Thickness";
  let summary_data := summary_data ++ [Raw (Str "put calc here")] in
  st ← scan (growth_run wb) (summary_headers, summary_data);
  let summary_headers := st.1 ++ ["Phase"; "Collaborator"; "Notes"] in
  summary_data ← fill_column st.2 (hrxrd wb) "Phase";
  summary_data ← fill_column summary_data (sample_cut wb) "Collaborator";
  mret (summary_headers, summary_data ++ [Raw (Str "put notes here")]).

(** [d[k] = v] on a dict: a key that is already there keeps its place and
    takes the new value. *)
Fixpoint dict_set {V} (d : list (string * V)) (k : string) (v : V) : list (string * V) :=
  match d with
  | [] => [(k, v)]
  | (k', v') :: d' =>
      if String.eqb k' k then (k', v) :: d' else (k', v') :: dict_set d' k v
  end.

Definition dict_of_pairs {V} (kvs : list (string * V)) : list (string * V) :=
  foldl (fun d kv => dict_set d kv.1 kv.2) [] kvs.

(** Line 107: [zip] stops at the shorter list. *)
Definition summary_dict (summary_headers : list string) (summary_data : list value)
  : list (string * value) :=
  dict_of_pairs (zip summary_headers summary_data).

(** Line 110: [pd.DataFrame(summary_dict, index=[0])], one row. *)
Definition new_dataframe (summary_headers : list string) (summary_data : list value)
  : frame value :=
  (fun kv : string * value => (kv.1, [kv.2])) <$> summary_dict summary_headers summary_data.

Definition string_of_nat (n : nat) : string := NilEmpty.string_of_uint (Nat.to_uint n).

(** Line 109, relative to the working directory. *)
Definition summary_filename (n : nat) : string :=
  "summary_" ++ string_of_nat n ++ "cols.xlsx".

(** The cells of column [h] of [df], missing values where [df] has no such
    column. *)
Definition column_or_missing (df : frame value) (h : string) : list value :=
  default (replicate (nrows df) (Raw Null)) (find_column df h).

(** [pd.concat([a, b], ignore_index=True)]: the columns of [a], then those
    of [b] that [a] lacks; the rows of [a], then the rows of [b]. *)
Definition concat (a b : frame value) : frame value :=
  (fun h => (h, column_or_missing a h ++ column_or_missing b h))
    <$> (column_names a ++ filter (fun h => h ∉ column_names a) (column_names b)).

(** The working directory: file name to the table [pd.read_excel] returns
    for its sheet "Summary". *)
Abbreviation directory := (gmap string (frame value)).

(** Lines 51-63.  The table is stored as it is written.  Reading a written
    file back keeps its columns and rows but infers the cell types anew (a
    text of digits may come back as a number); that is not modelled, so
    nothing below relies on the cells a second run reads from the file of a
    first. *)
Definition write_excel_file (fs : directory) (file_path : string) (dataframe : frame value)
  : directory :=
  <[file_path := dataframe]> fs.

(** Lines 107-121, after the record is assembled. *)
Definition merge (fs : directory) (summary_headers : list string) (new : frame value)
  : directory :=
  let filename := summary_filename (length summary_headers) in
  match fs !! filename with
  | Some existing_dataframe =>
      if Nat.eqb (ncols existing_dataframe) (length summary_headers)
      then write_excel_file fs filename (concat existing_dataframe new)
      else write_excel_file fs filename new
  | None => write_excel_file fs filename new
  end.

(** Lines 79-121, on the sheets read from the input file. *)
Definition generate_overview (wb : workbook) (fs : directory) : result directory :=
  st ← assemble wb;
  new ← fill_calculated_cell (new_dataframe st.1 st.2);
  mret (merge fs st.1 new).

(** [d.get(k)]. *)
Fixpoint dict_get {V} (d : list (string * V)) (k : string) : option V :=
  match d with
  | [] => None
  | (k', v) :: d' => if String.eqb k' k then Some v else dict_get d' k
  end.

(** The cell of column [h] in row [i], when the frame has one. *)
Definition cell_at (df : frame value) (h : string) (i : nat) : option value :=
  find_column df h ≫= fun col => col !! i.

(** Every column has exactly one row. *)
Definition one_row (df : frame value) : Prop :=
  Forall (fun kc : string * list value => length kc.2 = 1) df.

(** ** The scan in closed form *)

(** The scan substrings the label [h] contains, and the columns the scan
    picks: those whose label contains at least one of them. *)
Definition matching_quantities (h : string) : list string :=
  filter (fun q => contains q h = true) quantities.

Definition is_matched (h : string) : bool :=
  existsb (fun q => contains q h) quantities.

(** What lines 95-100 append to [summary_headers] and to [summary_data]:
    every label once per substring it contains, and as often the first cell
    of its column when the column has one. *)
Definition scan_headers (gr : frame cell) : list string :=
  column_names gr ≫= fun h => (fun _ => h) <$> matching_quantities h.

Definition first_cell (gr : frame cell) (h : string) : list value :=
  Raw <$> take 1 (default [] (find_column gr h)).

Definition scan_values (gr : frame cell) : list value :=
  column_names gr ≫= fun h => matching_quantities h ≫= fun _ => first_cell gr h.

(** ** The assembled lists in closed form *)

(** The text [fill_column] appends for a column that is present. *)
Definition extracted (sheet : frame cell) (header : string) : string :=
  match find_column sheet header with
  | Some (c0 :: rest) => if existsb isnull (c0 :: rest) then "empty" else py_str c0
  | _ => "empty"
  end.

(** The sheets have the columns the script indexes by name. *)
Definition well_formed (wb : workbook) : Prop :=
  overview_headers ⊆ column_names (overview wb)
  /\ "Thickness" ∈ column_names (afm_reflectance_sem wb)
  /\ "Phase" ∈ column_names (hrxrd wb)
  /\ "Collaborator" ∈ column_names (sample_cut wb).

Definition assembled_headers (wb : workbook) : list string :=
  overview_headers ++ ["Thickness"; "Growth Rate"]
  ++ scan_headers (growth_run wb) ++ ["Phase"; "Collaborator"; "Notes"].

Definition assembled_values (wb : workbook) : list value :=
  ((fun h => Raw (Str (extracted (overview wb) h))) <$> overview_headers)
  ++ [Raw (Str (extracted (afm_reflectance_sem wb) "Thickness")); Raw (Str "put calc here")]
  ++ scan_values (growth_run wb)
  ++ [Raw (Str (extracted (hrxrd wb) "Phase"));
      Raw (Str (extracted (sample_cut wb) "Collaborator"));
      Raw (Str "put notes here")].

(** ** Sample inputs *)

(** The one-character strings "²" (U+00B2) and "½" (U+00BD). *)
Definition superscript_two : string := String "178"%char EmptyString.
Definition one_half : string := String "189"%char EmptyString.

(** The record [generate_overview] builds from a minimal experiment. *)
Definition sample_record (thickness growth_time : string) : frame value :=
  [("Sample", [Raw (Str "A1")]); ("Date", [Raw (Str "2024-01-01")]);
   ("Film", [Raw (Str "GaN")]); ("Substrate", [Raw (Str "empty")]);
   ("Substrate T", [Raw (Str "700")]); ("Carrier Gas", [Raw (Str "H2")]);
   ("Growth Time", [Raw (Str growth_time)]); ("Thickness", [Raw (Str thickness)]);
   ("Growth Rate", [Raw (Str "put calc here")]); ("Phase", [Raw (Str "cubic")]);
   ("Collaborator", [Raw (Str "X")]); ("Notes", [Raw (Str "put notes here")])].

(** A workbook whose GrowthRun sheet has no data row: the scan finds the
    column "Bubbler Material TMGa" and no value for it. *)
Definition desync_workbook : workbook := {|
  overview := [("Sample", [Str "A1"]); ("Date", [Str "2024-01-01"]); ("Film", [Str "GaN"]);
               ("Substrate", [Null]); ("Substrate T", [Obj "700"]);
               ("Carrier Gas", [Str "H2"]); ("Growth Time", [Obj "120"])];
  growth_run := [("Step", []); ("Bubbler Material TMGa", [])];
  afm_reflectance_sem := [("Thickness", [Obj "600"])];
  hrxrd := [("Phase", [Str "cubic"])];
  sample_cut := [("Collaborator", [Str "X"])]
|}.

Definition desync_headers : list string :=
  ["Sample"; "Date"; "Film"; "Substrate"; "Substrate T"; "Carrier Gas"; "Growth Time";
   "Thickness"; "Growth Rate"; "Bubbler Material TMGa"; "Phase"; "Collaborator"; "Notes"].

Definition desync_values : list value :=
  [Raw (Str "A1"); Raw (Str "2024-01-01"); Raw (Str "GaN"); Raw (Str "empty");
   Raw (Str "700"); Raw (Str "H2"); Raw (Str "120"); Raw (Str "600");
   Raw (Str "put calc here"); Raw (Str "cubic"); Raw (Str "X"); Raw (Str "put notes here")].

(** The experiment of the end-to-end scenario, and a summary table of
    twelve columns left by an earlier run. *)
Definition sample_workbook : workbook := {|
  overview := [("Sample", [Str "A1"]); ("Date", [Str "2024-01-01"]); ("Film", [Str "GaN"]);
               ("Substrate", [Null]); ("Substrate T", [Obj "700"]);
               ("Carrier Gas", [Str "H2"]); ("Growth Time", [Str "120"])];
  growth_run := [("Step", [Obj "1"]); ("Pressure", [Obj "100"])];
  afm_reflectance_sem := [("Thickness", [Str "600"])];
  hrxrd := [("Phase", [Str "cubic"])];
  sample_cut := [("Collaborator", [Str "X"])]
|}.

Definition sample_headers : list string :=
  ["Sample"; "Date"; "Film"; "Substrate"; "Substrate T"; "Carrier Gas"; "Growth Time";
   "Thickness"; "Growth Rate"; "Phase"; "Collaborator"; "Notes"].

Definition sample_values : list value :=
  [Raw (Str "A1"); Raw (Str "2024-01-01"); Raw (Str "GaN"); Raw (Str "empty");
   Raw (Str "700"); Raw (Str "H2"); Raw (Str "120"); Raw (Str "600");
   Raw (Str "put calc here"); Raw (Str "cubic"); Raw (Str "X"); Raw (Str "put notes here")].

Definition prior_summary : frame value :=
  [("Sample", [Raw (Str "A0")]); ("Date", [Raw (Str "2023-12-24")]);
   ("Film", [Raw (Str "AlN")]); ("Substrate", [Raw (Str "Si")]);
   ("Substrate T", [Raw (Str "650")]); ("Carrier Gas", [Raw (Str "N2")]);
   ("Growth Time", [Raw (Obj "100")]); ("Thickness", [Raw (Obj "300")]);
   ("Growth Rate", [Float 3]); ("Phase", [Raw (Str "hexagonal")]);
   ("Collaborator", [Raw (Str "Y")]); ("Notes", [Raw (Str "put notes here")])].

Definition prior_directory : directory :=
  {[ "summary_12cols.xlsx" := prior_summary ]}.

(** The row the scenario produces, whatever the four fields it leaves open. *)
Definition scenario_row (film substrate substrate_t carrier_gas : string) : frame value :=
  [("Sample", [Raw (Str "A1")]); ("Date", [Raw (Str "2024-01-01")]);
   ("Film", [Raw (Str film)]); ("Substrate", [Raw (Str substrate)]);
   ("Substrate T", [Raw (Str substrate_t)]); ("Carrier Gas", [Raw (Str carrier_gas)]);
   ("Growth Time", [Raw (Str "120")]); ("Thickness", [Raw (Str "600")]);
   ("Growth Rate", [Float 5]); ("Phase", [Raw (Str "cubic")]);
   ("Collaborator", [Raw (Str "X")]); ("Notes", [Raw (Str "put notes here")])].

(** The column [h] of [sheet] has a first cell, shown as [s], and no null
    cell. *)
Definition shows (sheet : frame cell) (h s : string) : Prop :=
  exists c rest,
    find_column sheet h = Some (c :: rest) /\ (Null ∉ c :: rest) /\ py_str c = s.

(** A workbook with a GrowthRun label that contains two scan substrings. *)
Definition double_match_workbook : workbook := {|
  overview := overview sample_workbook;
  growth_run := [("Step", [Obj "1"]); ("Bubbler Material Partial Pressure", [Obj "3"])];
  afm_reflectance_sem := afm_reflectance_sem sample_workbook;
  hrxrd := hrxrd sample_workbook;
  sample_cut := sample_cut sample_workbook
|}.

(** A workbook whose GrowthRun has two matched columns, both with a row. *)
Definition matched_workbook : workbook := {|
  overview := overview sample_workbook;
  growth_run := [("Step", [Obj "1"]); ("Bubbler Material TMGa", [Obj "20"]);
                 ("Partial Pressure NH3", [Obj "0.5"])];
  afm_reflectance_sem := afm_reflectance_sem sample_workbook;
  hrxrd := hrxrd sample_workbook;
  sample_cut := sample_cut sample_workbook
|}.

(** Records that [fill_calculated_cell] cannot read: no "Thickness" column,
    a "Thickness" that is a number, no "Growth Time" beside a numeric
    "Thickness", a "Growth Time" that is missing. *)
Definition record_without_thickness : frame value :=
  [("Growth Time", [Raw (Str "120")]); ("Growth Rate", [Raw (Str "put calc here")])].

Definition record_number_thickness : frame value :=
  [("Growth Time", [Raw (Str "120")]); ("Thickness", [Raw (Obj "600")]);
   ("Growth Rate", [Raw (Str "put calc here")])].

Definition record_without_growth_time : frame value :=
  [("Thickness", [Raw (Str "600")]); ("Growth Rate", [Raw (Str "put calc here")])].

Definition record_null_growth_time : frame value :=
  [("Growth Time", [Raw Null]); ("Thickness", [Raw (Str "600")]);
   ("Growth Rate", [Raw (Str "put calc here")])].


(** The first column the script indexes and does not find, in the order of
    lines 88-104: the seven Overview fields, then "Thickness", "Phase",
    "Collaborator". *)
Definition first_missing (wb : workbook) : option string :=
  match filter (fun h => h ∉ column_names (overview wb)) overview_headers with
  | h :: _ => Some h
  | [] =>
      if decide ("Thickness" ∈ column_names (afm_reflectance_sem wb)) then
        if decide ("Phase" ∈ column_names (hrxrd wb)) then
          if decide ("Collaborator" ∈ column_names (sample_cut wb)) then None
          else Some "Collaborator"
        else Some "Phase"
      else Some "Thickness"
  end.

(** A workbook whose Overview lacks "Film" and "Carrier Gas" and whose HRXRD
    lacks "Phase". *)
Definition incomplete_workbook : workbook := {|
  overview := [("Sample", [Str "A1"]); ("Date", [Str "2024-01-01"]);
               ("Substrate", [Null]); ("Substrate T", [Obj "700"]);
               ("Growth Time", [Str "120"])];
  growth_run := growth_run sample_workbook;
  afm_reflectance_sem := afm_reflectance_sem sample_workbook;
  hrxrd := [("Angle", [Obj "34.5"])];
  sample_cut := sample_cut sample_workbook
|}.

(** The row [desync_workbook] produces: twelve columns for thirteen
    headers. *)
Definition desync_row : frame value :=
  [("Sample", [Raw (Str "A1")]); ("Date", [Raw (Str "2024-01-01")]);
   ("Film", [Raw (Str "GaN")]); ("Substrate", [Raw (Str "empty")]);
   ("Substrate T", [Raw (Str "700")]); ("Carrier Gas", [Raw (Str "H2")]);
   ("Growth Time", [Raw (Str "120")]); ("Thickness", [Raw (Str "600")]);
   ("Growth Rate", [Float 5]); ("Bubbler Material TMGa", [Raw (Str "cubic")]);
   ("Phase", [Raw (Str "X")]); ("Collaborator", [Raw (Str "put notes here")])].

(** * Properties *)

(** ** The error monad *)

Lemma bind_Ok {A B} (r : result A) (f : A -> result B) (b : B) :
  r ≫= f = Ok b <-> exists a, r = Ok a /\ f a = Ok b.
Proof.
  destruct r as [a|e]; simpl; split.
  - intros H. exists a. split; [reflexivity | exact H].
  - intros (a' & Ha & Hf). injection Ha as ->. exact Hf.
  - discriminate.
  - intros (a' & Ha & _). discriminate.
Qed.

(** Splits the hypotheses that say a sequence of calls returned. *)
Ltac inv_ok :=
  repeat match goal with
  | H : _ ≫= _ = Ok _ |- _ => apply bind_Ok in H; destruct H as (? & ? & H)
  | H : mret _ = Ok _ |- _ => injection H as H
  | H : Ok _ = Ok _ |- _ => injection H as H
  | H : Raise _ = Ok _ |- _ => discriminate H
  end.

(** ** Columns of a frame *)

Lemma find_column_Some {A} (df : frame A) h col :
  find_column df h = Some col -> (h, col) ∈ df.
Proof.
  induction df as [|[k c] df IH]; simpl; [discriminate|].
  destruct (String.eqb_spec k h) as [->|Hne].
  - intros [= ->]. left.
  - intros H. right. auto.
Qed.

Lemma find_column_None {A} (df : frame A) h :
  find_column df h = None <-> h ∉ column_names df.
Proof.
  unfold column_names. induction df as [|[k c] df IH]; simpl.
  - split; [intros _; apply not_elem_of_nil | reflexivity].
  - rewrite not_elem_of_cons. destruct (String.eqb_spec k h) as [->|Hne].
    + split; [discriminate | intros [[] _]; reflexivity].
    + rewrite IH. split; [intros H; split; [congruence | exact H] | intros [_ H]; exact H].
Qed.

Lemma find_column_is_Some {A} (df : frame A) h :
  h ∈ column_names df -> is_Some (find_column df h).
Proof.
  intros Hin. destruct (find_column df h) eqn:E; [eauto|].
  apply find_column_None in E. contradiction.
Qed.

Lemma find_column_app {A} (df1 df2 : frame A) h :
  find_column (df1 ++ df2) h =
    match find_column df1 h with
    | Some col => Some col
    | None => find_column df2 h
    end.
Proof.
  induction df1 as [|[k c] df1 IH]; simpl; [reflexivity|].
  destruct (String.eqb k h); [reflexivity | exact IH].
Qed.

Lemma isnull_Null c : isnull c = true <-> c = Null.
Proof. destruct c; simpl; split; congruence. Qed.

Lemma any_null col : existsb isnull col = true <-> Null ∈ col.
Proof.
  rewrite existsb_exists. split.
  - intros (c & Hin & Hc). apply isnull_Null in Hc. subst c.
    apply list_elem_of_In. exact Hin.
  - intros Hin. exists Null. split; [apply list_elem_of_In; exact Hin | reflexivity].
Qed.

Lemma no_null col : existsb isnull col = false <-> Null ∉ col.
Proof.
  rewrite <- any_null. destruct (existsb isnull col); split; congruence.
Qed.

(** ** [fill_column] *)

Lemma fill_column_absent summary (sheet : frame cell) header :
  find_column sheet header = None ->
  fill_column summary sheet header = Raise (KeyError header).
Proof. intros H. unfold fill_column, getitem. rewrite H. reflexivity. Qed.

Lemma fill_column_present summary (sheet : frame cell) header col :
  find_column sheet header = Some col ->
  fill_column summary sheet header =
    Ok (summary ++ [match col with
                    | [] => empty_sentinel
                    | c0 :: _ => if existsb isnull col then empty_sentinel
                                 else Raw (Str (py_str c0))
                    end]).
Proof.
  intros H. unfold fill_column, getitem. rewrite H. simpl.
  destruct col as [|c0 rest]; [reflexivity|].
  destruct (existsb isnull (c0 :: rest)); reflexivity.
Qed.

(** C2, as the claim states it, fails: a sheet that has no column "Film"
    makes [fill_column] raise [KeyError] instead of returning "empty". *)
Lemma fill_column_absent_raises :
  fill_column [] [("Sample", [Str "A1"])] "Film" = Raise (KeyError "Film").
Proof. reflexivity. Qed.

(** C2 (amended): when the named column is present, [fill_column] appends the
    sentinel "empty" if the column has zero rows or its first cell is null, and
    raises nothing; a sheet without the named column makes it raise
    [KeyError]. *)
Theorem fill_column_empty summary (sheet : frame cell) header col :
  find_column sheet header = Some col ->
  (col = [] \/ exists rest, col = Null :: rest) ->
  fill_column summary sheet header = Ok (summary ++ [empty_sentinel])
  /\ forall sheet' : frame cell,
       header ∉ column_names sheet' ->
       fill_column summary sheet' header = Raise (KeyError header).
Proof.
  intros Hcol Hempty. split.
  - rewrite (fill_column_present _ _ _ _ Hcol).
    destruct Hempty as [-> | [rest ->]]; reflexivity.
  - intros sheet' Hno. apply fill_column_absent, find_column_None, Hno.
Qed.

Lemma fill_column_empty_witness :
  fill_column [Raw (Str "A1")] [("Phase", [Null; Str "cubic"])] "Phase"
    = Ok ([Raw (Str "A1")] ++ [empty_sentinel])
  /\ forall sheet' : frame cell,
       "Phase" ∉ column_names sheet' ->
       fill_column [Raw (Str "A1")] sheet' "Phase" = Raise (KeyError "Phase").
Proof.
  apply (fill_column_empty [Raw (Str "A1")] [("Phase", [Null; Str "cubic"])]
           "Phase" [Null; Str "cubic"]).
  - reflexivity.
  - right. exists [Str "cubic"]. reflexivity.
Defined.

(** C3, as the claim states it, fails: the first cell is not null, a later
    cell of the column is, and [fill_column] appends "empty". *)
Lemma fill_column_later_null :
  fill_column [] [("Phase", [Str "cubic"; Null])] "Phase" = Ok [empty_sentinel].
Proof. reflexivity. Qed.

(** C3 (amended): when the named column is present and non-empty,
    [fill_column] appends the string presentation of the first cell if no cell
    of the column is null, and the sentinel "empty" if any cell of the column
    is null, the first one or a later one. *)
Theorem fill_column_first_cell summary (sheet : frame cell) header c0 rest :
  find_column sheet header = Some (c0 :: rest) ->
  (Null ∉ c0 :: rest ->
     fill_column summary sheet header = Ok (summary ++ [Raw (Str (py_str c0))]))
  /\ (Null ∈ c0 :: rest ->
     fill_column summary sheet header = Ok (summary ++ [empty_sentinel])).
Proof.
  intros Hcol. rewrite (fill_column_present _ _ _ _ Hcol). split; intros H.
  - apply no_null in H. rewrite H. reflexivity.
  - apply any_null in H. rewrite H. reflexivity.
Qed.

Lemma fill_column_first_cell_witness :
  fill_column [] [("Thickness", [Obj "600"; Obj "610"])] "Thickness"
    = Ok ([] ++ [Raw (Str (py_str (Obj "600")))])
  /\ fill_column [] [("Phase", [Str "cubic"; Null])] "Phase"
    = Ok ([] ++ [empty_sentinel]).
Proof.
  split.
  - apply (fill_column_first_cell [] [("Thickness", [Obj "600"; Obj "610"])]
             "Thickness" (Obj "600") [Obj "610"]); [reflexivity|].
    intros H. repeat (apply elem_of_cons in H as [H|H]; [discriminate H|]).
    apply elem_of_nil in H. exact H.
  - apply (fill_column_first_cell [] [("Phase", [Str "cubic"; Null])]
             "Phase" (Str "cubic") [Null]); [reflexivity|].
    right. left.
Defined.

(** ** [fill_calculated_cell] *)



Lemma find_column_set_loc0_ne (df : frame value) h h' v :
  h' <> h -> find_column (set_loc0 df h v) h' = find_column df h'.
Proof.
  intros Hne. unfold set_loc0. destruct (find_column df h) as [col|] eqn:E.
  - clear E. induction df as [|[k c] df IH]; [reflexivity|].
    cbn [fmap list_fmap find_column fst snd].
    destruct (String.eqb_spec k h) as [->|Hk]; cbn [find_column fst snd].
    + destruct (String.eqb_spec h h'); [congruence | exact IH].
    + destruct (String.eqb k h'); [reflexivity | exact IH].
  - rewrite find_column_app. destruct (find_column df h'); [reflexivity|].
    simpl. destruct (String.eqb_spec h h'); congruence.
Qed.

Lemma find_column_set_loc0_eq (df : frame value) h v col :
  find_column df h = Some col ->
  find_column (set_loc0 df h v) h = Some (set_first v col).
Proof.
  intros E. unfold set_loc0. rewrite E.
  induction df as [|[k c] df IH]; [discriminate|].
  cbn [fmap list_fmap find_column fst snd] in *.
  destruct (String.eqb_spec k h) as [->|Hk]; cbn [find_column fst snd].
  - rewrite String.eqb_refl. congruence.
  - destruct (String.eqb_spec k h); [contradiction | auto].
Qed.

Lemma column_names_set_loc0 (df : frame value) h v col :
  find_column df h = Some col ->
  column_names (set_loc0 df h v) = column_names df.
Proof.
  intros E. unfold set_loc0, column_names. rewrite E.
  rewrite <- list_fmap_compose. apply list_fmap_ext.
  intros _ [k c] _. simpl. destruct (String.eqb k h); reflexivity.
Qed.


(** What a call that returns has done: nothing, or one assignment to the
    first row of "Growth Rate". *)
Lemma fill_calculated_cell_cases df df' :
  fill_calculated_cell df = Ok df' ->
  df' = df \/ exists q, df' = set_loc0 df "Growth Rate" (Float q).
Proof.
  unfold fill_calculated_cell. intros H. inv_ok.
  match goal with H : (if ?b then _ else _) = Ok _ |- _ => destruct b end; inv_ok;
    [|left; congruence].
  match goal with H : (if ?b then _ else _) = Ok _ |- _ => destruct b end; inv_ok;
    [|left; congruence].
  right. eexists. symmetry. eassumption.
Qed.

(** The two fields the computation reads hold text. *)
Section text_fields.

Variable df : frame value.
Variables t g : string.
Hypothesis Ht : loc0 df "Thickness" = Ok (Raw (Str t)).
Hypothesis Hg : loc0 df "Growth Time" = Ok (Raw (Str g)).

(** The three outcomes of lines 46-48 on such a record. *)
Lemma fill_calculated_cell_text :
  fill_calculated_cell df =
    if isnumeric t && isnumeric g then
      if parses t && parses g
      then Ok (set_loc0 df "Growth Rate"
                 (Float (true_divide (int_of_digits 0 t) (int_of_digits 0 g))))
      else Raise ValueError
    else Ok df.
Proof.
  unfold fill_calculated_cell. rewrite Ht. simpl.
  destruct (isnumeric t); [|reflexivity]. rewrite Hg. simpl.
  destruct (isnumeric g); [|reflexivity]. unfold to_numeric. simpl.
  destruct (parses t); [|reflexivity]. simpl.
  destruct (parses g); reflexivity.
Qed.



(** C5 (amended): when the first-row values of "Thickness" and "Growth Time"
    are strings and [str.isnumeric] rejects at least one of them (the sentinel
    "empty", a string with a decimal point such as "1.5", any string with a
    character that is not numeric), [fill_calculated_cell] returns the record
    unchanged, "Growth Rate" included. *)
Theorem fill_calculated_cell_unchanged :
  isnumeric t = false \/ isnumeric g = false ->
  fill_calculated_cell df = Ok df.
Proof.
  intros Hno. rewrite fill_calculated_cell_text.
  destruct Hno as [-> | ->]; [reflexivity|].
  rewrite andb_false_r. reflexivity.
Qed.

(** X2, beyond the guard: when both strings pass [str.isnumeric] and one of
    them is not made of decimal digits, [pd.to_numeric] cannot parse it and
    [fill_calculated_cell] raises [ValueError]. *)
Theorem fill_calculated_cell_raises :
  isnumeric t = true ->
  isnumeric g = true ->
  isdecimal t = false \/ isdecimal g = false ->
  fill_calculated_cell df = Raise ValueError.
Proof.
  intros Et Eg Hno. rewrite fill_calculated_cell_text, Et, Eg. simpl.
  unfold parses. destruct Hno as [-> | ->]; [reflexivity|].
  simpl. rewrite andb_false_r. reflexivity.
Qed.

End text_fields.



(** C5, as the claim states it, fails: "²" is not a string of decimal digits,
    yet it passes the [isnumeric] guard of line 46; [pd.to_numeric] then
    raises and no record is returned. *)
Lemma fill_calculated_cell_superscript_raises :
  isdecimal superscript_two = false
  /\ loc0 (sample_record superscript_two "120") "Thickness" = Ok (Raw (Str superscript_two))
  /\ fill_calculated_cell (sample_record superscript_two "120") = Raise ValueError.
Proof. repeat split; reflexivity. Qed.

Lemma fill_calculated_cell_unchanged_witness :
  fill_calculated_cell (sample_record "empty" "1.5") = Ok (sample_record "empty" "1.5").
Proof.
  apply (fill_calculated_cell_unchanged (sample_record "empty" "1.5") "empty" "1.5");
    [reflexivity | reflexivity | right; reflexivity].
Defined.

Lemma fill_calculated_cell_raises_witness :
  fill_calculated_cell (sample_record "600" one_half) = Raise ValueError.
Proof.
  apply (fill_calculated_cell_raises (sample_record "600" one_half) "600" one_half);
    [reflexivity | reflexivity | reflexivity | reflexivity | right; reflexivity].
Defined.

Lemma filter_other_columns (df : frame value) h v :
  filter (fun kc : string * list value => kc.1 <> h) (set_loc0 df h v)
  = filter (fun kc : string * list value => kc.1 <> h) df.
Proof.
  unfold set_loc0. destruct (find_column df h) as [col|].
  - induction df as [|[k c] df IH]; [reflexivity|].
    rewrite fmap_cons. cbn [fst snd].
    destruct (String.eqb_spec k h) as [->|Hk].
    + rewrite !filter_cons_False by (intros Hn; apply Hn; reflexivity). exact IH.
    + rewrite !filter_cons_True by (simpl; auto). f_equal. exact IH.
  - rewrite filter_app, filter_cons_False by (intros Hn; apply Hn; reflexivity).
    rewrite filter_nil. apply app_nil_r.
Qed.

(** C10: a call of [fill_calculated_cell] that returns has changed at most
    the first row of "Growth Rate": the columns under any other label are the
    same, in the same order, and so are the rows of "Growth Rate" below the
    first, whichever branch was taken. *)
Theorem fill_calculated_cell_frame df df' :
  fill_calculated_cell df = Ok df' ->
  filter (fun kc : string * list value => kc.1 <> "Growth Rate") df'
    = filter (fun kc : string * list value => kc.1 <> "Growth Rate") df
  /\ (forall h, h <> "Growth Rate" -> find_column df' h = find_column df h)
  /\ (forall col, find_column df "Growth Rate" = Some col ->
        column_names df' = column_names df
        /\ exists col', find_column df' "Growth Rate" = Some col'
                        /\ tail col' = tail col).
Proof.
  intros H. destruct (fill_calculated_cell_cases _ _ H) as [->|[q ->]].
  - split; [reflexivity|]. split; [reflexivity|].
    intros col Hcol. split; [reflexivity|]. exists col. split; [exact Hcol | reflexivity].
  - split; [apply filter_other_columns|]. split.
    + intros h Hne. apply find_column_set_loc0_ne. exact Hne.
    + intros col Hcol. split; [eapply column_names_set_loc0; eassumption|].
      rewrite (find_column_set_loc0_eq _ _ _ _ Hcol).
      eexists. split; [reflexivity|]. destruct col; reflexivity.
Qed.

Lemma fill_calculated_cell_frame_witness :
  filter (fun kc : string * list value => kc.1 <> "Growth Rate")
         (set_loc0 (sample_record "600" "120") "Growth Rate" (Float 5))
    = filter (fun kc : string * list value => kc.1 <> "Growth Rate")
             (sample_record "600" "120")
  /\ (forall h, h <> "Growth Rate" ->
        find_column (set_loc0 (sample_record "600" "120") "Growth Rate" (Float 5)) h
        = find_column (sample_record "600" "120") h)
  /\ (forall col, find_column (sample_record "600" "120") "Growth Rate" = Some col ->
        column_names (set_loc0 (sample_record "600" "120") "Growth Rate" (Float 5))
        = column_names (sample_record "600" "120")
        /\ exists col',
             find_column (set_loc0 (sample_record "600" "120") "Growth Rate" (Float 5))
                         "Growth Rate" = Some col'
             /\ tail col' = tail col).
Proof.
  apply (fill_calculated_cell_frame (sample_record "600" "120")).
  reflexivity.
Defined.

(** ** The scan of GrowthRun *)

Section growth_run_scan.

Variable gr : frame cell.

Lemma scan_step_Ok h st q :
  h ∈ column_names gr ->
  scan_step gr h st q =
    Ok (if contains q h then (st.1 ++ [h], st.2 ++ first_cell gr h) else st).
Proof.
  intros Hin. unfold scan_step, first_cell, getitem.
  destruct (contains q h); [|reflexivity].
  destruct (find_column_is_Some _ _ Hin) as [col ->]. simpl.
  destruct col as [|c0 rest]; simpl; [rewrite app_nil_r|]; reflexivity.
Qed.

Lemma scan_quantities h qs st :
  h ∈ column_names gr ->
  for_each (scan_step gr h) qs st =
    Ok (st.1 ++ ((fun _ => h) <$> filter (fun q => contains q h = true) qs),
        st.2 ++ (filter (fun q => contains q h = true) qs ≫= fun _ => first_cell gr h)).
Proof.
  intros Hin. revert st. induction qs as [|q qs IH]; intros [hs vs]; simpl.
  - rewrite !app_nil_r. reflexivity.
  - rewrite (scan_step_Ok _ _ _ Hin). simpl. rewrite IH.
    destruct (contains q h) eqn:E.
    + rewrite filter_cons_True by exact E. simpl. rewrite <- !app_assoc. reflexivity.
    + rewrite filter_cons_False by (rewrite E; discriminate). reflexivity.
Qed.

Lemma scan_columns l st :
  l ⊆ column_names gr ->
  for_each (fun st h => for_each (scan_step gr h) quantities st) l st =
    Ok (st.1 ++ (l ≫= fun h => (fun _ => h) <$> matching_quantities h),
        st.2 ++ (l ≫= fun h => matching_quantities h ≫= fun _ => first_cell gr h)).
Proof.
  revert st. induction l as [|h l IH]; intros [hs vs] Hsub.
  - simpl. rewrite !app_nil_r. reflexivity.
  - cbn [for_each]. rewrite scan_quantities by (apply Hsub; left).
    cbn [mbind result_bind fst snd].
    rewrite IH by (intros x Hx; apply Hsub; right; exact Hx).
    cbn [fst snd]. rewrite !bind_cons, <- !app_assoc. reflexivity.
Qed.

(** The scan never raises, and appends [scan_headers] and [scan_values]. *)
Lemma scan_closed_form st :
  scan gr st = Ok (st.1 ++ scan_headers gr, st.2 ++ scan_values gr).
Proof. unfold scan. apply scan_columns. reflexivity. Qed.

Lemma is_matched_spec h :
  is_matched h = true <-> matching_quantities h <> [].
Proof.
  unfold is_matched, matching_quantities.
  generalize quantities as qs.
  induction qs as [|q qs IH]; simpl.
  { rewrite filter_nil. split; [discriminate | intros H; destruct H; reflexivity]. }
  destruct (contains q h) eqn:E; simpl.
  - rewrite filter_cons_True by exact E. split; [discriminate | reflexivity].
  - rewrite filter_cons_False by (rewrite E; discriminate). exact IH.
Qed.

Lemma length_first_cell h : length (first_cell gr h) <= 1.
Proof.
  unfold first_cell. rewrite length_fmap, length_take. lia.
Qed.

Lemma length_bind_const {A B} (l : list A) (k : list B) :
  length (l ≫= fun _ => k) = length l * length k.
Proof.
  induction l as [|x l IH]; [reflexivity|].
  rewrite bind_cons, length_app, IH. reflexivity.
Qed.

(** Per column, the values appended never outnumber the headers. *)
Lemma scan_lengths_le (l : list string) :
  length (l ≫= fun h => matching_quantities h ≫= fun _ => first_cell gr h)
  <= length (l ≫= fun h => (fun _ : string => h) <$> matching_quantities h).
Proof.
  induction l as [|h l IH]; [reflexivity|].
  rewrite !bind_cons, !length_app, length_fmap, length_bind_const.
  pose proof (length_first_cell h). nia.
Qed.

Lemma scan_lengths_lt (l : list string) h :
  h ∈ l -> is_matched h = true -> find_column gr h = Some [] ->
  length (l ≫= fun h => matching_quantities h ≫= fun _ => first_cell gr h)
  < length (l ≫= fun h => (fun _ : string => h) <$> matching_quantities h).
Proof.
  intros Hin Hm Hcol. induction l as [|k l IH]; [by apply elem_of_nil in Hin|].
  rewrite !bind_cons, !length_app, length_fmap, length_bind_const.
  pose proof (length_first_cell k) as Hk.
  pose proof (scan_lengths_le l) as Hle.
  apply elem_of_cons in Hin as [<-|Hin].
  - apply is_matched_spec in Hm.
    assert (length (first_cell gr h) = 0) as -> by (unfold first_cell; rewrite Hcol; reflexivity).
    destruct (matching_quantities h); [congruence|]. simpl. lia.
  - specialize (IH Hin). nia.
Qed.

Lemma scan_lengths_eq (l : list string) :
  (forall h, h ∈ l -> is_matched h = true -> find_column gr h <> Some []) ->
  l ⊆ column_names gr ->
  length (l ≫= fun h => matching_quantities h ≫= fun _ => first_cell gr h)
  = length (l ≫= fun h => (fun _ : string => h) <$> matching_quantities h).
Proof.
  intros Hne Hsub. induction l as [|k l IH]; [reflexivity|].
  rewrite !bind_cons, !length_app, length_fmap, length_bind_const.
  rewrite IH.
  2: { intros h Hh. apply Hne. right. exact Hh. }
  2: { intros h Hh. apply Hsub. right. exact Hh. }
  f_equal. destruct (matching_quantities k) as [|q qs] eqn:E; [reflexivity|].
  assert (is_matched k = true) as Hm by (apply is_matched_spec; congruence).
  assert (length (first_cell gr k) = 1) as ->; [|lia].
  unfold first_cell.
  destruct (find_column_is_Some gr k) as [col Hcol]; [apply Hsub; left|].
  rewrite Hcol. simpl. destruct col as [|c0 rest]; [|reflexivity].
  exfalso. eapply Hne; [left | exact Hm | exact Hcol].
Qed.

(** C7: whenever GrowthRun has a column whose label contains one of the scan
    substrings and which has no row, the scan appends the label to the
    headers and no value for it, and leaves a header list strictly longer than
    the value list. *)
Theorem scan_desynchronizes h hs vs :
  h ∈ column_names gr ->
  is_matched h = true ->
  find_column gr h = Some [] ->
  length hs = length vs ->
  (forall q st, contains q h = true -> scan_step gr h st q = Ok (st.1 ++ [h], st.2))
  /\ exists hs' vs',
       scan gr (hs, vs) = Ok (hs', vs')
       /\ h ∈ hs'
       /\ length vs' < length hs'.
Proof.
  intros Hin Hm Hcol Hlen. split.
  - intros q st Hq. rewrite (scan_step_Ok _ _ _ Hin), Hq.
    unfold first_cell. rewrite Hcol. simpl. rewrite app_nil_r. reflexivity.
  - rewrite scan_closed_form. simpl. eexists _, _. split; [reflexivity|]. split.
    + apply elem_of_app. right. unfold scan_headers.
      apply list_elem_of_bind. exists h. split; [|exact Hin].
      apply is_matched_spec in Hm. destruct (matching_quantities h); [congruence|]. left.
    + rewrite !length_app, Hlen. apply Nat.add_lt_mono_l.
      exact (scan_lengths_lt (column_names gr) h Hin Hm Hcol).
Qed.

End growth_run_scan.

Lemma scan_desynchronizes_witness :
  (forall q st, contains q "Bubbler Material TMGa" = true ->
     scan_step [("Step", []); ("Bubbler Material TMGa", [])] "Bubbler Material TMGa" st q
     = Ok (st.1 ++ ["Bubbler Material TMGa"], st.2))
  /\ exists hs' vs',
       scan [("Step", []); ("Bubbler Material TMGa", [])]
            (["Thickness"; "Growth Rate"], [Raw (Str "600"); Raw (Str "put calc here")])
       = Ok (hs', vs')
       /\ "Bubbler Material TMGa" ∈ hs'
       /\ length vs' < length hs'.
Proof.
  apply (scan_desynchronizes [("Step", []); ("Bubbler Material TMGa", [])]
           "Bubbler Material TMGa" ["Thickness"; "Growth Rate"]
           [Raw (Str "600"); Raw (Str "put calc here")]).
  - right. left.
  - reflexivity.
  - reflexivity.
  - reflexivity.
Defined.

(** ** The assembler *)

Lemma fill_column_extracted summary (sheet : frame cell) header :
  header ∈ column_names sheet ->
  fill_column summary sheet header = Ok (summary ++ [Raw (Str (extracted sheet header))]).
Proof.
  intros Hin. destruct (find_column_is_Some _ _ Hin) as [col Hcol].
  rewrite (fill_column_present _ _ _ _ Hcol). unfold extracted. rewrite Hcol.
  destruct col as [|c0 rest]; [reflexivity|].
  destruct (existsb isnull (c0 :: rest)); reflexivity.
Qed.

Lemma fill_column_Ok_present summary (sheet : frame cell) header summary' :
  fill_column summary sheet header = Ok summary' -> header ∈ column_names sheet.
Proof.
  intros H. destruct (find_column sheet header) as [col|] eqn:E.
  - apply find_column_Some in E. unfold column_names.
    apply list_elem_of_fmap. exists (header, col). split; [reflexivity | exact E].
  - rewrite (fill_column_absent _ _ _ E) in H. discriminate.
Qed.

Lemma fill_columns_extracted (sheet : frame cell) headers summary :
  headers ⊆ column_names sheet ->
  for_each (fun s h => fill_column s sheet h) headers summary =
    Ok (summary ++ ((fun h => Raw (Str (extracted sheet h))) <$> headers)).
Proof.
  revert summary. induction headers as [|h headers IH]; intros summary Hsub.
  - simpl. rewrite app_nil_r. reflexivity.
  - cbn [for_each]. rewrite fill_column_extracted by (apply Hsub; left).
    cbn [mbind result_bind]. rewrite IH by (intros x Hx; apply Hsub; right; exact Hx).
    rewrite fmap_cons, <- app_assoc. reflexivity.
Qed.

Lemma fill_columns_Ok_present (sheet : frame cell) headers summary summary' :
  for_each (fun s h => fill_column s sheet h) headers summary = Ok summary' ->
  headers ⊆ column_names sheet.
Proof.
  revert summary. induction headers as [|h headers IH]; intros summary H.
  - intros x Hx. by apply elem_of_nil in Hx.
  - cbn [for_each] in H. inv_ok. intros y Hy. apply elem_of_cons in Hy as [->|Hy].
    + eapply fill_column_Ok_present. eassumption.
    + eapply IH; eassumption.
Qed.

(** On a well-formed workbook the assembler returns the closed form. *)
Lemma assemble_well_formed wb :
  well_formed wb -> assemble wb = Ok (assembled_headers wb, assembled_values wb).
Proof.
  intros (Hov & Ht & Hp & Hc). unfold assemble.
  rewrite (fill_columns_extracted _ _ _ Hov). cbn [mbind result_bind].
  rewrite (fill_column_extracted _ _ _ Ht). cbn [mbind result_bind].
  rewrite scan_closed_form. cbn [mbind result_bind fst snd].
  rewrite (fill_column_extracted _ _ _ Hp). cbn [mbind result_bind].
  rewrite (fill_column_extracted _ _ _ Hc). cbn [mbind result_bind mret result_ret].
  unfold assembled_headers, assembled_values.
  rewrite <- !app_assoc. reflexivity.
Qed.

(** It returns on no other workbook. *)
Lemma assemble_Ok_well_formed wb st :
  assemble wb = Ok st -> well_formed wb.
Proof.
  unfold assemble. intros H. inv_ok. split; [|split; [|split]].
  - eapply fill_columns_Ok_present. eassumption.
  - eapply fill_column_Ok_present. eassumption.
  - eapply fill_column_Ok_present. eassumption.
  - eapply fill_column_Ok_present. eassumption.
Qed.

Lemma assemble_Ok wb hs vs :
  assemble wb = Ok (hs, vs) ->
  well_formed wb /\ hs = assembled_headers wb /\ vs = assembled_values wb.
Proof.
  intros H. pose proof (assemble_Ok_well_formed _ _ H) as Hwf.
  rewrite (assemble_well_formed _ Hwf) in H. injection H as <- <-. auto.
Qed.

(** ** The record built from the two lists *)

Lemma dict_get_set {V} (d : list (string * V)) k v k' :
  dict_get (dict_set d k v) k' = if String.eqb k k' then Some v else dict_get d k'.
Proof.
  induction d as [|[k0 v0] d IH]; simpl; [reflexivity|].
  destruct (String.eqb_spec k0 k) as [->|Hk]; simpl.
  - destruct (String.eqb k k'); reflexivity.
  - rewrite IH. destruct (String.eqb_spec k0 k') as [->|Hk'].
    + destruct (String.eqb_spec k k'); [congruence | reflexivity].
    + reflexivity.
Qed.

Lemma dict_set_keys {V} (d : list (string * V)) k v :
  (dict_set d k v).*1 = if decide (k ∈ d.*1) then d.*1 else d.*1 ++ [k].
Proof.
  induction d as [|[k0 v0] d IH].
  - simpl. destruct (decide (k ∈ [])) as [H|_]; [by apply elem_of_nil in H | reflexivity].
  - cbn [dict_set]. destruct (String.eqb_spec k0 k) as [->|Hk]; rewrite !fmap_cons; cbn [fst].
    + rewrite decide_True by left. reflexivity.
    + rewrite IH. destruct (decide (k ∈ d.*1)) as [Hin|Hout].
      * rewrite decide_True by (right; exact Hin). reflexivity.
      * rewrite decide_False; [reflexivity|].
        intros [?|?]%elem_of_cons; [congruence | contradiction].
Qed.

Lemma dict_set_fresh {V} (d : list (string * V)) k v :
  k ∉ d.*1 -> dict_set d k v = d ++ [(k, v)].
Proof.
  induction d as [|[k0 v0] d IH]; [reflexivity|].
  rewrite fmap_cons. cbn [fst dict_set].
  intros Hout. apply not_elem_of_cons in Hout as [Hne Hout].
  destruct (String.eqb_spec k0 k); [congruence|]. rewrite IH by exact Hout. reflexivity.
Qed.

Lemma dict_of_pairs_snoc {V} (kvs : list (string * V)) k v :
  dict_of_pairs (kvs ++ [(k, v)]) = dict_set (dict_of_pairs kvs) k v.
Proof. unfold dict_of_pairs. rewrite foldl_app. reflexivity. Qed.

Lemma dict_of_pairs_keys {V} (kvs : list (string * V)) k :
  k ∈ (dict_of_pairs kvs).*1 <-> k ∈ kvs.*1.
Proof.
  induction kvs as [|[k0 v0] kvs IH] using rev_ind; [reflexivity|].
  rewrite dict_of_pairs_snoc, dict_set_keys, fmap_app, elem_of_app. simpl.
  rewrite list_elem_of_singleton.
  destruct (decide (k0 ∈ (dict_of_pairs kvs).*1)) as [Hin|Hout].
  - rewrite IH. split; [auto|]. intros [H| ->]; [exact H|]. apply IH. exact Hin.
  - rewrite elem_of_app, list_elem_of_singleton, IH. reflexivity.
Qed.

Lemma dict_of_pairs_NoDup_keys {V} (kvs : list (string * V)) :
  NoDup (dict_of_pairs kvs).*1.
Proof.
  induction kvs as [|[k0 v0] kvs IH] using rev_ind; [constructor|].
  rewrite dict_of_pairs_snoc, dict_set_keys.
  destruct (decide (k0 ∈ (dict_of_pairs kvs).*1)) as [Hin|Hout]; [exact IH|].
  apply NoDup_app. split; [exact IH|]. split; [|apply NoDup_singleton].
  intros x Hx ->%list_elem_of_singleton. contradiction.
Qed.

(** Distinct keys: the dict is the list of pairs. *)
Lemma dict_of_pairs_NoDup {V} (kvs : list (string * V)) :
  NoDup kvs.*1 -> dict_of_pairs kvs = kvs.
Proof.
  induction kvs as [|[k0 v0] kvs IH] using rev_ind; [reflexivity|].
  rewrite fmap_app. intros (Hnd & Hdisj & _)%NoDup_app.
  rewrite dict_of_pairs_snoc, IH by exact Hnd. apply dict_set_fresh.
  intros Hin. apply (Hdisj _ Hin). left.
Qed.

(** A key takes the value of its last pair. *)
Lemma dict_of_pairs_get_last {V} (l1 l2 : list (string * V)) k v :
  k ∉ l2.*1 -> dict_get (dict_of_pairs (l1 ++ (k, v) :: l2)) k = Some v.
Proof.
  induction l2 as [|[k0 v0] l2 IH] using rev_ind; intros Hout.
  - rewrite dict_of_pairs_snoc, dict_get_set, String.eqb_refl. reflexivity.
  - rewrite fmap_app in Hout. apply not_elem_of_app in Hout as [Hout Hne].
    change (l1 ++ (k, v) :: l2 ++ [(k0, v0)]) with (l1 ++ ((k, v) :: l2) ++ [(k0, v0)]).
    rewrite app_assoc, dict_of_pairs_snoc, dict_get_set.
    destruct (String.eqb_spec k0 k) as [->|_]; [|apply IH; exact Hout].
    exfalso. apply Hne. left.
Qed.

Lemma find_column_singletons (d : list (string * value)) k :
  find_column ((fun kv : string * value => (kv.1, [kv.2])) <$> d) k
  = (fun v => [v]) <$> dict_get d k.
Proof.
  induction d as [|[k0 v0] d IH]; simpl; [reflexivity|].
  destruct (String.eqb k0 k); [reflexivity | exact IH].
Qed.

Lemma column_names_new_dataframe hs vs :
  column_names (new_dataframe hs vs) = (summary_dict hs vs).*1.
Proof.
  unfold column_names, new_dataframe. rewrite <- list_fmap_compose.
  apply list_fmap_ext. intros _ [k v] _. reflexivity.
Qed.

Lemma zip_keys {A B} (hs : list A) (vs : list B) :
  (zip hs vs).*1 = take (length vs) hs.
Proof.
  revert vs. induction hs as [|h hs IH]; intros [|v vs]; simpl; try reflexivity.
  rewrite IH. reflexivity.
Qed.

(** The value at position [i] lands on the header at position [i], unless
    the same header comes again among the paired ones. *)
Lemma new_dataframe_positional hs vs i h v :
  hs !! i = Some h -> vs !! i = Some v ->
  h ∉ drop (S i) (take (length vs) hs) ->
  find_column (new_dataframe hs vs) h = Some [v].
Proof.
  intros Hh Hv Hlater. unfold new_dataframe, summary_dict.
  rewrite find_column_singletons.
  assert (zip hs vs !! i = Some (h, v)) as Hi.
  { rewrite lookup_zip_with, Hh, Hv. reflexivity. }
  rewrite <- (take_drop_middle _ _ _ Hi).
  rewrite dict_of_pairs_get_last; [reflexivity|].
  rewrite fmap_drop, zip_keys. exact Hlater.
Qed.

Lemma elem_of_drop_take {A} (l : list A) k n x :
  x ∈ drop k (take n l) -> x ∈ drop k l.
Proof.
  intros [j Hj]%list_elem_of_lookup. rewrite lookup_drop in Hj.
  apply lookup_take_Some in Hj as [Hj _].
  apply list_elem_of_lookup. exists j. rewrite lookup_drop. exact Hj.
Qed.

Lemma scan_headers_matched (gr : frame cell) h :
  h ∈ scan_headers gr -> is_matched h = true.
Proof.
  unfold scan_headers. intros (k & Hh & _)%list_elem_of_bind.
  apply list_elem_of_fmap in Hh as (q & -> & Hq).
  apply is_matched_spec. intros E. rewrite E in Hq. by apply elem_of_nil in Hq.
Qed.

(** A fixed header that the scan cannot append again keeps the value
    [fill_column] extracted for it. *)
Lemma assembled_fixed_field wb i h v :
  assembled_headers wb !! i = Some h ->
  assembled_values wb !! i = Some v ->
  i < 9 ->
  is_matched h = false ->
  h ∉ drop (S i) (overview_headers ++ ["Thickness"; "Growth Rate"]) ->
  h ∉ ["Phase"; "Collaborator"; "Notes"] ->
  loc0 (new_dataframe (assembled_headers wb) (assembled_values wb)) h = Ok v.
Proof.
  intros Hh Hv Hi Hm Hfixed Hlast. unfold loc0, getitem.
  rewrite (new_dataframe_positional _ _ i h v Hh Hv); [reflexivity|].
  intros Hin%elem_of_drop_take. unfold assembled_headers in Hin.
  rewrite app_assoc, drop_app_le in Hin by (simpl; lia).
  apply elem_of_app in Hin as [Hin|Hin]; [contradiction|].
  apply elem_of_app in Hin as [Hin|Hin]; [|contradiction].
  apply scan_headers_matched in Hin. congruence.
Qed.

(** Membership in a list given by its elements. *)
Ltac in_list := solve [repeat first [left | right]].

Ltac not_in_list :=
  let H := fresh in
  intros H; repeat (apply elem_of_cons in H as [H|H]; [discriminate H|]);
  apply elem_of_nil in H; exact H.

Lemma assembled_thickness wb :
  loc0 (new_dataframe (assembled_headers wb) (assembled_values wb)) "Thickness"
  = Ok (Raw (Str (extracted (afm_reflectance_sem wb) "Thickness"))).
Proof.
  apply (assembled_fixed_field wb 7); try reflexivity; [lia | |]; simpl; not_in_list.
Qed.

Lemma assembled_growth_time wb :
  loc0 (new_dataframe (assembled_headers wb) (assembled_values wb)) "Growth Time"
  = Ok (Raw (Str (extracted (overview wb) "Growth Time"))).
Proof.
  apply (assembled_fixed_field wb 6); try reflexivity; [lia | |]; simpl; not_in_list.
Qed.




(** ** The merge with the summary file *)

Lemma find_column_keyed {A} (names : list string) (F : string -> list A) h :
  find_column ((fun k => (k, F k)) <$> names) h
  = if decide (h ∈ names) then Some (F h) else None.
Proof.
  induction names as [|k names IH].
  - destruct (decide (h ∈ [])) as [H|_]; [by apply elem_of_nil in H | reflexivity].
  - rewrite fmap_cons. cbn [find_column]. destruct (String.eqb_spec k h) as [->|Hk].
    + rewrite decide_True by left. reflexivity.
    + rewrite IH. destruct (decide (h ∈ names)) as [Hin|Hout].
      * rewrite decide_True by (right; exact Hin). reflexivity.
      * rewrite decide_False; [reflexivity|].
        intros [?|?]%elem_of_cons; [congruence | contradiction].
Qed.

Lemma find_column_concat (a b : frame value) h :
  find_column (concat a b) h
  = if decide (h ∈ column_names a \/ h ∈ column_names b)
    then Some (column_or_missing a h ++ column_or_missing b h) else None.
Proof.
  unfold concat. rewrite find_column_keyed.
  destruct (decide (h ∈ column_names a)) as [Ha|Ha].
  - rewrite !decide_True; [reflexivity | left; exact Ha | apply elem_of_app; left; exact Ha].
  - destruct (decide (h ∈ column_names b)) as [Hb|Hb].
    + rewrite !decide_True; [reflexivity | right; exact Hb |].
      apply elem_of_app. right. apply list_elem_of_filter. split; assumption.
    + rewrite !decide_False; [reflexivity | intros [?|?]; contradiction |].
      intros [?|[_ ?]%list_elem_of_filter]%elem_of_app; contradiction.
Qed.

Lemma one_row_new_dataframe hs vs : one_row (new_dataframe hs vs).
Proof.
  unfold one_row, new_dataframe. apply Forall_fmap, Forall_forall.
  intros [k v] _. reflexivity.
Qed.

Lemma one_row_nrows df : one_row df -> df <> [] -> nrows df = 1.
Proof.
  intros Hone Hne. destruct df as [|[k col] df]; [congruence|].
  simpl. exact (Forall_inv Hone).
Qed.

Lemma one_row_set_loc0 df h v : one_row df -> one_row (set_loc0 df h v).
Proof.
  intros Hone. unfold set_loc0. destruct (find_column df h) as [col|] eqn:E.
  - unfold one_row in *. apply Forall_fmap. eapply Forall_impl; [exact Hone|].
    intros [k c] Hc. simpl in *. destruct (String.eqb k h); simpl; [|exact Hc].
    destruct c as [|c0 [|c1 c]]; simpl in *; congruence.
  - apply Forall_app. split; [exact Hone|]. apply Forall_singleton. simpl.
    rewrite length_replicate. destruct df as [|[k c] df]; [reflexivity|].
    pose proof (Forall_inv Hone) as H1. simpl in *. rewrite H1. reflexivity.
Qed.

(** The record [fill_calculated_cell] returns has one row and a column. *)
Lemma fill_calculated_cell_one_row df new :
  one_row df -> fill_calculated_cell df = Ok new -> one_row new /\ new <> [].
Proof.
  intros Hone H.
  assert (df <> []) as Hne.
  { intros ->. discriminate H. }
  destruct (fill_calculated_cell_cases _ _ H) as [->|[q ->]]; [auto|].
  split; [apply one_row_set_loc0; exact Hone|].
  unfold set_loc0. destruct (find_column df "Growth Rate").
  - destruct df; [congruence | discriminate].
  - destruct df; discriminate.
Qed.

Lemma length_column_or_missing (df : frame value) h :
  Forall (fun kc : string * list value => length kc.2 = nrows df) df ->
  length (column_or_missing df h) = nrows df.
Proof.
  intros Hrect. unfold column_or_missing.
  destruct (find_column df h) as [col|] eqn:E; simpl.
  - apply find_column_Some in E. rewrite Forall_forall in Hrect.
    exact (Hrect _ E).
  - apply length_replicate.
Qed.

Lemma one_row_rectangular df :
  one_row df -> df <> [] ->
  Forall (fun kc : string * list value => length kc.2 = nrows df) df.
Proof.
  intros Hone Hne. rewrite (one_row_nrows _ Hone Hne). exact Hone.
Qed.

Lemma nrows_concat (a b : frame value) :
  a <> [] ->
  Forall (fun kc : string * list value => length kc.2 = nrows b) b ->
  nrows (concat a b) = nrows a + nrows b.
Proof.
  intros Ha Hb. destruct a as [|[k col] a]; [congruence|].
  unfold concat. simpl. rewrite length_app, (length_column_or_missing _ _ Hb).
  unfold column_or_missing. simpl. rewrite String.eqb_refl. reflexivity.
Qed.

(** The rows of [a] come first in [concat a b], cell by cell. *)
Lemma cell_at_concat_old (a b : frame value) h i :
  wf_frame a -> h ∈ column_names a -> i < nrows a ->
  cell_at (concat a b) h i = cell_at a h i.
Proof.
  intros [_ Hrect] Hin Hi. unfold cell_at. rewrite find_column_concat.
  rewrite decide_True by (left; exact Hin).
  destruct (find_column_is_Some _ _ Hin) as [col Hcol].
  unfold column_or_missing at 1. rewrite Hcol. simpl.
  apply lookup_app_l. apply find_column_Some in Hcol.
  rewrite Forall_forall in Hrect. pose proof (Hrect _ Hcol) as Hl.
  simpl in Hl. lia.
Qed.

(** The rows of [b] follow them. *)
Lemma cell_at_concat_new (a b : frame value) h i :
  wf_frame a -> h ∈ column_names b ->
  cell_at (concat a b) h (nrows a + i) = cell_at b h i.
Proof.
  intros [_ Hrect] Hin. unfold cell_at. rewrite find_column_concat.
  rewrite decide_True by (right; exact Hin).
  destruct (find_column_is_Some _ _ Hin) as [col Hcol].
  unfold column_or_missing at 2. rewrite Hcol. simpl.
  rewrite lookup_app_r; rewrite (length_column_or_missing _ _ Hrect); [|lia].
  f_equal. lia.
Qed.

(** C1: once the record is assembled and computed, [generate_overview]
    writes one file, named after the header count.  Without a prior file the
    table written is the new record alone.  With a prior file of as many
    columns as there are headers the table is the prior rows, unchanged and
    first, followed by the new record as last row.  With a prior file of
    another column count the table is the new record alone. *)
Theorem merge_policy wb fs hs vs new :
  assemble wb = Ok (hs, vs) ->
  fill_calculated_cell (new_dataframe hs vs) = Ok new ->
  exists final,
    generate_overview wb fs = Ok (<[summary_filename (length hs) := final]> fs)
    /\ (fs !! summary_filename (length hs) = None -> final = new)
    /\ (forall prior,
          fs !! summary_filename (length hs) = Some prior ->
          ncols prior = length hs ->
          wf_frame prior ->
          nrows final = nrows prior + 1
          /\ (forall h i, h ∈ column_names prior -> i < nrows prior ->
                cell_at final h i = cell_at prior h i)
          /\ (forall h, h ∈ column_names new ->
                cell_at final h (nrows prior) = cell_at new h 0))
    /\ (forall prior,
          fs !! summary_filename (length hs) = Some prior ->
          ncols prior <> length hs ->
          final = new).
Proof.
  intros Has Hcalc.
  destruct (fill_calculated_cell_one_row _ _ (one_row_new_dataframe hs vs) Hcalc)
    as [Hone Hne].
  unfold generate_overview. rewrite Has. cbn [mbind result_bind fst snd].
  rewrite Hcalc. cbn [mbind result_bind mret result_ret].
  unfold merge, write_excel_file.
  destruct (fs !! summary_filename (length hs)) as [prior|] eqn:Hfs.
  - destruct (Nat.eqb_spec (ncols prior) (length hs)) as [Heq|Hneq].
    + exists (concat prior new). split; [reflexivity|]. split; [discriminate|]. split.
      * intros prior' [= <-] _ Hwf. split; [|split].
        -- rewrite nrows_concat, (one_row_nrows _ Hone Hne); [reflexivity | |].
           ++ intros ->. apply assemble_Ok in Has as (_ & -> & _). discriminate Heq.
           ++ apply one_row_rectangular; assumption.
        -- intros h i. apply cell_at_concat_old. exact Hwf.
        -- intros h Hh. rewrite <- (Nat.add_0_r (nrows prior)) at 1.
           apply cell_at_concat_new; assumption.
      * intros prior' [= <-] Hneq. contradiction.
    + exists new. split; [reflexivity|]. split; [discriminate|]. split.
      * intros prior' [= <-] Heq. contradiction.
      * reflexivity.
  - exists new. split; [reflexivity|]. split; [reflexivity|]. split; discriminate.
Qed.

Lemma prior_summary_wf : wf_frame prior_summary.
Proof.
  split.
  - apply (bool_decide_unpack _). vm_compute. exact I.
  - repeat constructor.
Qed.

Lemma merge_policy_witness :
  exists final,
    generate_overview sample_workbook prior_directory
      = Ok (<["summary_12cols.xlsx" := final]> prior_directory)
    /\ nrows final = 2
    /\ cell_at final "Sample" 0 = Some (Raw (Str "A0"))
    /\ cell_at final "Sample" 1 = Some (Raw (Str "A1"))
    /\ cell_at final "Growth Rate" 1 = Some (Float 5).
Proof.
  destruct (merge_policy sample_workbook prior_directory sample_headers sample_values
              (scenario_row "GaN" "empty" "700" "H2") eq_refl eq_refl)
    as (final & Hgen & _ & Hsame & _).
  destruct (Hsame prior_summary eq_refl eq_refl prior_summary_wf) as (Hn & Hold & Hnew).
  exists final. split; [exact Hgen|]. split; [exact Hn|]. split; [|split].
  - rewrite (Hold "Sample" 0); [reflexivity | left | simpl; lia].
  - refine (Hnew "Sample" _). left.
  - refine (Hnew "Growth Rate" _). do 8 right. left.
Defined.

(** What lines 112-121 leave in the directory, read at the last row. *)
Lemma merge_last_row (fs : directory) hs new :
  one_row new -> new <> [] -> hs <> [] ->
  (forall prior, fs !! summary_filename (length hs) = Some prior -> wf_frame prior) ->
  exists final,
    merge fs hs new = <[summary_filename (length hs) := final]> fs
    /\ forall h, h ∈ column_names new ->
         cell_at final h (pred (nrows final)) = cell_at new h 0.
Proof.
  intros Hone Hne Hhs Hwf. unfold merge, write_excel_file.
  assert (forall h, h ∈ column_names new -> cell_at new h (pred (nrows new)) = cell_at new h 0)
    as Hlast by (rewrite (one_row_nrows _ Hone Hne); reflexivity).
  destruct (fs !! summary_filename (length hs)) as [prior|] eqn:Hfs;
    [|exists new; auto].
  destruct (Nat.eqb_spec (ncols prior) (length hs)) as [Heq|Hneq]; [|exists new; auto].
  exists (concat prior new). split; [reflexivity|]. intros h Hh.
  rewrite nrows_concat, (one_row_nrows _ Hone Hne).
  - replace (pred (nrows prior + 1)) with (nrows prior + 0) by lia.
    apply cell_at_concat_new; [apply Hwf; reflexivity | exact Hh].
  - intros ->. destruct hs; [congruence | discriminate Heq].
  - apply one_row_rectangular; assumption.
Qed.

Lemma shows_extracted (sheet : frame cell) h s :
  shows sheet h s -> h ∈ column_names sheet /\ extracted sheet h = s.
Proof.
  intros (c & rest & Hcol & Hnull & Hs). split.
  - apply dec_stable. intros Hout. apply find_column_None in Hout. congruence.
  - unfold extracted. rewrite Hcol. apply no_null in Hnull. rewrite Hnull. exact Hs.
Qed.

(** No label contains a scan substring: the scan appends nothing. *)
Lemma scan_nothing (gr : frame cell) :
  (forall h, h ∈ column_names gr -> is_matched h = false) ->
  scan_headers gr = [] /\ scan_values gr = [].
Proof.
  intros Hno. unfold scan_headers, scan_values.
  induction (column_names gr) as [|h l IH]; [split; reflexivity|].
  rewrite !bind_cons.
  assert (matching_quantities h = []) as ->.
  { destruct (matching_quantities h) eqn:E; [reflexivity|].
    assert (is_matched h = true) by (apply is_matched_spec; congruence).
    rewrite Hno in *; [discriminate | left]. }
  simpl. apply IH. intros k Hk. apply Hno. right. exact Hk.
Qed.

Lemma scenario_row_computed film substrate substrate_t carrier_gas :
  fill_calculated_cell
    (new_dataframe sample_headers
       [Raw (Str "A1"); Raw (Str "2024-01-01"); Raw (Str film); Raw (Str substrate);
        Raw (Str substrate_t); Raw (Str carrier_gas); Raw (Str "120"); Raw (Str "600");
        Raw (Str "put calc here"); Raw (Str "cubic"); Raw (Str "X");
        Raw (Str "put notes here")])
  = Ok (scenario_row film substrate substrate_t carrier_gas).
Proof. vm_compute. reflexivity. Qed.

(** C8: an experiment whose Overview shows Sample "A1", Date "2024-01-01"
    and Growth Time "120" (and has the four other Overview columns), whose
    AFMReflectanceSEM shows Thickness "600", whose GrowthRun has no column
    matching a scan substring, whose HRXRD shows Phase "cubic" and whose
    SampleCut shows Collaborator "X" makes [generate_overview] write
    summary_12cols.xlsx with, as last row, Sample A1, Date 2024-01-01, Growth
    Time 120, Thickness 600, Growth Rate 5.0, Phase cubic, Collaborator X and
    Notes "put notes here". *)
Theorem end_to_end_scenario wb (fs : directory) :
  shows (overview wb) "Sample" "A1" ->
  shows (overview wb) "Date" "2024-01-01" ->
  shows (overview wb) "Growth Time" "120" ->
  ["Film"; "Substrate"; "Substrate T"; "Carrier Gas"] ⊆ column_names (overview wb) ->
  shows (afm_reflectance_sem wb) "Thickness" "600" ->
  (forall h, h ∈ column_names (growth_run wb) -> is_matched h = false) ->
  shows (hrxrd wb) "Phase" "cubic" ->
  shows (sample_cut wb) "Collaborator" "X" ->
  (forall prior, fs !! "summary_12cols.xlsx" = Some prior -> wf_frame prior) ->
  exists final,
    generate_overview wb fs = Ok (<["summary_12cols.xlsx" := final]> fs)
    /\ cell_at final "Sample" (pred (nrows final)) = Some (Raw (Str "A1"))
    /\ cell_at final "Date" (pred (nrows final)) = Some (Raw (Str "2024-01-01"))
    /\ cell_at final "Growth Time" (pred (nrows final)) = Some (Raw (Str "120"))
    /\ cell_at final "Thickness" (pred (nrows final)) = Some (Raw (Str "600"))
    /\ cell_at final "Growth Rate" (pred (nrows final)) = Some (Float 5)
    /\ cell_at final "Phase" (pred (nrows final)) = Some (Raw (Str "cubic"))
    /\ cell_at final "Collaborator" (pred (nrows final)) = Some (Raw (Str "X"))
    /\ cell_at final "Notes" (pred (nrows final)) = Some (Raw (Str "put notes here")).
Proof.
  intros [Hs Es]%shows_extracted [Hd Ed]%shows_extracted [Hg Eg]%shows_extracted
    Hrest [Ht Et]%shows_extracted Hno [Hp Ep]%shows_extracted [Hc Ec]%shows_extracted Hwf.
  assert (well_formed wb) as Hwb.
  { split; [|auto]. intros h Hh. unfold overview_headers in Hh.
    repeat (apply elem_of_cons in Hh as [->|Hh]; [first [assumption | apply Hrest; in_list]|]).
    by apply elem_of_nil in Hh. }
  destruct (scan_nothing _ Hno) as [Hsh Hsv].
  unfold generate_overview. rewrite (assemble_well_formed _ Hwb).
  cbn [mbind result_bind fst snd].
  unfold assembled_headers, assembled_values. rewrite Hsh, Hsv, Et, Ep, Ec.
  unfold overview_headers. cbn [fmap list_fmap app]. rewrite Es, Ed, Eg.
  change (list_fmap _ _ _ []) with (@nil value). cbn [app].
  pose proof (scenario_row_computed (extracted (overview wb) "Film")
                (extracted (overview wb) "Substrate")
                (extracted (overview wb) "Substrate T")
                (extracted (overview wb) "Carrier Gas")) as Hrow.
  unfold sample_headers in Hrow. rewrite Hrow.
  cbn [mbind result_bind mret result_ret].
  edestruct (merge_last_row fs sample_headers) as (final & -> & Hlast);
    [| | |exact Hwf|].
  - repeat constructor.
  - discriminate.
  - discriminate.
  - exists final. split; [reflexivity|].
    repeat split; (rewrite Hlast; [reflexivity | in_list]).
Qed.

Lemma end_to_end_scenario_witness :
  exists final,
    generate_overview sample_workbook prior_directory
      = Ok (<["summary_12cols.xlsx" := final]> prior_directory)
    /\ cell_at final "Sample" (pred (nrows final)) = Some (Raw (Str "A1"))
    /\ cell_at final "Date" (pred (nrows final)) = Some (Raw (Str "2024-01-01"))
    /\ cell_at final "Growth Time" (pred (nrows final)) = Some (Raw (Str "120"))
    /\ cell_at final "Thickness" (pred (nrows final)) = Some (Raw (Str "600"))
    /\ cell_at final "Growth Rate" (pred (nrows final)) = Some (Float 5)
    /\ cell_at final "Phase" (pred (nrows final)) = Some (Raw (Str "cubic"))
    /\ cell_at final "Collaborator" (pred (nrows final)) = Some (Raw (Str "X"))
    /\ cell_at final "Notes" (pred (nrows final)) = Some (Raw (Str "put notes here")).
Proof.
  apply (end_to_end_scenario sample_workbook prior_directory).
  - exists (Str "A1"), []. split; [reflexivity|]. split; [not_in_list | reflexivity].
  - exists (Str "2024-01-01"), []. split; [reflexivity|]. split; [not_in_list | reflexivity].
  - exists (Str "120"), []. split; [reflexivity|]. split; [not_in_list | reflexivity].
  - intros h Hh. repeat (apply elem_of_cons in Hh as [->|Hh]; [in_list|]).
    apply elem_of_nil in Hh. destruct Hh.
  - exists (Str "600"), []. split; [reflexivity|]. split; [not_in_list | reflexivity].
  - intros h Hh. repeat (apply elem_of_cons in Hh as [->|Hh]; [reflexivity|]).
    apply elem_of_nil in Hh. destruct Hh.
  - exists (Str "cubic"), []. split; [reflexivity|]. split; [not_in_list | reflexivity].
  - exists (Str "X"), []. split; [reflexivity|]. split; [not_in_list | reflexivity].
  - intros prior Hp. unfold prior_directory in Hp.
    rewrite lookup_singleton_eq in Hp. injection Hp as <-. exact prior_summary_wf.
Defined.

(** ** Labels that contain two scan substrings *)

(** C6 fails at a GrowthRun label that contains two of the scan substrings:
    the inner loop of lines 96-100 has no [break], so the label is appended
    once per substring.  The header list then holds it twice, the record
    keeps one column for it, and the file named after 14 headers holds 13
    columns: the next run finds the counts different and drops the row. *)
Lemma assemble_repeats_header :
  exists hs vs,
    assemble double_match_workbook = Ok (hs, vs)
    /\ hs = ["Sample"; "Date"; "Film"; "Substrate"; "Substrate T"; "Carrier Gas";
             "Growth Time"; "Thickness"; "Growth Rate";
             "Bubbler Material Partial Pressure"; "Bubbler Material Partial Pressure";
             "Phase"; "Collaborator"; "Notes"]
    /\ filter (fun h => is_matched h = true) (column_names (growth_run double_match_workbook))
       = ["Bubbler Material Partial Pressure"]
    /\ length hs = length vs
    /\ ncols (new_dataframe hs vs) = 13
    /\ exists fs1 fs2 table,
         generate_overview double_match_workbook ∅ = Ok fs1
         /\ generate_overview double_match_workbook fs1 = Ok fs2
         /\ fs2 !! "summary_14cols.xlsx" = Some table
         /\ nrows table = 1.
Proof.
  eexists _, _. split; [reflexivity|]. split; [reflexivity|].
  split; [reflexivity|]. split; [reflexivity|]. split; [reflexivity|].
  eexists _, _, _. split; [reflexivity|]. split; [vm_compute; reflexivity|].
  split; [vm_compute; reflexivity | reflexivity].
Qed.

Lemma scan_headers_single (l : list string) :
  (forall h, h ∈ l -> length (matching_quantities h) <= 1) ->
  (l ≫= fun h => (fun _ : string => h) <$> matching_quantities h)
  = filter (fun h => is_matched h = true) l.
Proof.
  intros Hone. induction l as [|h l IH]; [reflexivity|].
  rewrite bind_cons, IH by (intros k Hk; apply Hone; right; exact Hk).
  pose proof (Hone h ltac:(left)) as Hh.
  destruct (is_matched h) eqn:E.
  - rewrite filter_cons_True by exact E.
    apply is_matched_spec in E.
    destruct (matching_quantities h) as [|q [|q' qs]]; simpl in *; [congruence | reflexivity | lia].
  - rewrite filter_cons_False by (rewrite E; discriminate).
    destruct (matching_quantities h) as [|q qs] eqn:Eq; [reflexivity|].
    assert (is_matched h = true) by (apply is_matched_spec; congruence). congruence.
Qed.

(** X1, the part of C6 the code keeps.  On a workbook that has the columns the
    script indexes, with every matched GrowthRun column non-empty, the
    assembler returns a header list and a value list of equal length, the
    headers being the seven Overview fields, Thickness and Growth Rate, the
    scanned labels, then Phase, Collaborator, Notes; and when no label
    contains two scan substrings the scanned labels are the matched GrowthRun
    columns in source order. *)
Theorem assemble_equal_lengths wb :
  well_formed wb ->
  (forall h, h ∈ column_names (growth_run wb) -> is_matched h = true ->
     find_column (growth_run wb) h <> Some []) ->
  exists hs vs,
    assemble wb = Ok (hs, vs)
    /\ length hs = length vs
    /\ hs = overview_headers ++ ["Thickness"; "Growth Rate"]
            ++ scan_headers (growth_run wb) ++ ["Phase"; "Collaborator"; "Notes"]
    /\ ((forall h, h ∈ column_names (growth_run wb) ->
           length (matching_quantities h) <= 1) ->
        scan_headers (growth_run wb)
        = filter (fun h => is_matched h = true) (column_names (growth_run wb))).
Proof.
  intros Hwf Hne. exists (assembled_headers wb), (assembled_values wb).
  split; [apply assemble_well_formed; exact Hwf|]. split; [|split; [reflexivity|]].
  - unfold assembled_headers, assembled_values, scan_headers, scan_values.
    rewrite !length_app, length_fmap.
    rewrite (scan_lengths_eq (growth_run wb) (column_names (growth_run wb)) Hne);
      reflexivity.
  - apply scan_headers_single.
Qed.

Lemma assemble_equal_lengths_witness :
  exists hs vs,
    assemble matched_workbook = Ok (hs, vs)
    /\ length hs = length vs
    /\ hs = overview_headers ++ ["Thickness"; "Growth Rate"]
            ++ scan_headers (growth_run matched_workbook)
            ++ ["Phase"; "Collaborator"; "Notes"]
    /\ ((forall h, h ∈ column_names (growth_run matched_workbook) ->
           length (matching_quantities h) <= 1) ->
        scan_headers (growth_run matched_workbook)
        = filter (fun h => is_matched h = true)
                 (column_names (growth_run matched_workbook))).
Proof.
  apply (assemble_equal_lengths matched_workbook).
  - split; [|split; [|split]]; [|in_list..].
    intros h Hh. unfold overview_headers in Hh.
    repeat (apply elem_of_cons in Hh as [->|Hh]; [in_list|]).
    apply elem_of_nil in Hh. destruct Hh.
  - intros h Hh.
    repeat (apply elem_of_cons in Hh as [->|Hh];
            [intros Hm Hc; first [discriminate Hm | discriminate Hc]|]).
    apply elem_of_nil in Hh. destruct Hh.
Defined.

(** * Further properties of the script *)

(** ** [fill_column], lines 23-30 *)

(** X3: [fill_column] returns exactly when the sheet has the named column;
    what it returns is the list it was given with one value more, a [str]. *)
Theorem fill_column_returns summary (sheet : frame cell) header :
  ((exists summary', fill_column summary sheet header = Ok summary')
   <-> header ∈ column_names sheet)
  /\ (forall summary',
        fill_column summary sheet header = Ok summary' ->
        exists s, summary' = summary ++ [Raw (Str s)]
                  /\ length summary' = S (length summary)).
Proof.
  split; [split|].
  - intros [summary' H]. eapply fill_column_Ok_present. exact H.
  - intros Hin. rewrite (fill_column_extracted _ _ _ Hin). eauto.
  - intros summary' H.
    rewrite (fill_column_extracted _ _ _ (fill_column_Ok_present _ _ _ _ H)) in H.
    injection H as <-. eexists. split; [reflexivity|].
    rewrite length_app. simpl. lia.
Qed.

(** ** [fill_calculated_cell], lines 46-48 *)

Lemma loc0_set_loc0_ne (df : frame value) h h' v :
  h' <> h -> loc0 (set_loc0 df h v) h' = loc0 df h'.
Proof.
  intros Hne. unfold loc0, getitem. rewrite find_column_set_loc0_ne by exact Hne.
  reflexivity.
Qed.

Lemma set_first_idem {A} (v : A) col : set_first v (set_first v col) = set_first v col.
Proof. destruct col; reflexivity. Qed.

Lemma set_column_absent (df : frame value) h v :
  find_column df h = None ->
  (fun kc : string * list value =>
     if String.eqb kc.1 h then (kc.1, set_first v kc.2) else kc) <$> df = df.
Proof.
  induction df as [|[k c] df IH]; [reflexivity|].
  cbn [find_column]. rewrite fmap_cons. cbn [fst snd].
  destruct (String.eqb k h); [discriminate|]. intros H. rewrite IH by exact H. reflexivity.
Qed.

(** Assigning the same value twice is assigning it once. *)
Lemma set_loc0_idem (df : frame value) h v :
  set_loc0 (set_loc0 df h v) h v = set_loc0 df h v.
Proof.
  unfold set_loc0 at 1.
  destruct (find_column df h) as [col|] eqn:E.
  - rewrite (find_column_set_loc0_eq _ _ _ _ E). unfold set_loc0. rewrite E.
    rewrite <- list_fmap_compose. apply list_fmap_ext. intros _ [k c] _. simpl.
    destruct (String.eqb k h) eqn:Ek; simpl; [|rewrite Ek; reflexivity].
    rewrite Ek, set_first_idem. reflexivity.
  - assert (find_column (set_loc0 df h v) h
            = Some (v :: replicate (pred (nrows df)) (Raw Null))) as ->.
    { unfold set_loc0. rewrite E, find_column_app, E. simpl.
      rewrite String.eqb_refl. reflexivity. }
    unfold set_loc0. rewrite E, fmap_app, (set_column_absent _ _ _ E). simpl.
    rewrite String.eqb_refl. reflexivity.
Qed.

(** X4: the test of line 46 is short-circuit.  When "Thickness" is a
    string that [str.isnumeric] rejects, the record is returned unchanged
    whatever "Growth Time" is, even when the record has no such column. *)
Theorem fill_calculated_cell_short_circuit df t :
  loc0 df "Thickness" = Ok (Raw (Str t)) ->
  isnumeric t = false ->
  fill_calculated_cell df = Ok df.
Proof.
  intros Ht Hno. unfold fill_calculated_cell. rewrite Ht. simpl.
  rewrite Hno. reflexivity.
Qed.

Lemma fill_calculated_cell_short_circuit_witness :
  find_column [("Thickness", [Raw (Str "empty")])] "Growth Time" = None
  /\ fill_calculated_cell [("Thickness", [Raw (Str "empty")])]
     = Ok [("Thickness", [Raw (Str "empty")])].
Proof.
  split; [reflexivity|].
  apply (fill_calculated_cell_short_circuit [("Thickness", [Raw (Str "empty")])] "empty");
    reflexivity.
Defined.

(** X5: what [fill_calculated_cell] raises on a record it cannot read.  A
    record without a "Thickness" column raises [KeyError]; a "Thickness" that
    is not a [str] raises [AttributeError]; beside a numeric "Thickness", a
    record without "Growth Time" raises [KeyError] and a "Growth Time" that
    is not a [str] raises [AttributeError]. *)
Theorem fill_calculated_cell_errors df :
  (find_column df "Thickness" = None ->
     fill_calculated_cell df = Raise (KeyError "Thickness"))
  /\ (forall v, loc0 df "Thickness" = Ok v -> (forall s, v <> Raw (Str s)) ->
        fill_calculated_cell df = Raise AttributeError)
  /\ (forall t, loc0 df "Thickness" = Ok (Raw (Str t)) -> isnumeric t = true ->
        (find_column df "Growth Time" = None ->
           fill_calculated_cell df = Raise (KeyError "Growth Time"))
        /\ (forall v, loc0 df "Growth Time" = Ok v -> (forall s, v <> Raw (Str s)) ->
              fill_calculated_cell df = Raise AttributeError)).
Proof.
  assert (forall v, (forall s, v <> Raw (Str s)) -> isnumeric_method v = Raise AttributeError)
    as Hattr.
  { intros [[| s |]|] Hv; try reflexivity. destruct (Hv s). reflexivity. }
  split; [|split].
  - intros H. unfold fill_calculated_cell, loc0, getitem. rewrite H. reflexivity.
  - intros v Hv Hns. unfold fill_calculated_cell. rewrite Hv. simpl.
    rewrite (Hattr _ Hns). reflexivity.
  - intros t Ht Et. split.
    + intros H. unfold fill_calculated_cell. rewrite Ht. simpl. rewrite Et.
      unfold loc0, getitem. rewrite H. reflexivity.
    + intros v Hv Hns. unfold fill_calculated_cell. rewrite Ht. simpl. rewrite Et, Hv.
      simpl. rewrite (Hattr _ Hns). reflexivity.
Qed.

(** X6: a second call changes nothing.  When [fill_calculated_cell] returns
    a record, calling it on that record returns the same record. *)
Theorem fill_calculated_cell_idempotent df df' :
  fill_calculated_cell df = Ok df' ->
  fill_calculated_cell df' = Ok df'.
Proof.
  intros H. pose proof H as H0. unfold fill_calculated_cell in H.
  destruct (loc0 df "Thickness") as [tv|e] eqn:ET; [|discriminate H].
  cbn [mbind result_bind] in H.
  destruct (isnumeric_method tv) as [[|]|e] eqn:EM; cbn [mbind result_bind] in H;
    [| injection H as <-; exact H0 | discriminate H].
  destruct (loc0 df "Growth Time") as [gv|e] eqn:EG; [|discriminate H].
  cbn [mbind result_bind] in H.
  destruct (isnumeric_method gv) as [[|]|e] eqn:EN; cbn [mbind result_bind] in H;
    [| injection H as <-; exact H0 | discriminate H].
  destruct (to_numeric (as_text tv)) as [a|e] eqn:EA; [|discriminate H].
  cbn [mbind result_bind] in H.
  destruct (to_numeric (as_text gv)) as [b|e] eqn:EB; [|discriminate H].
  injection H as <-.
  unfold fill_calculated_cell.
  rewrite !loc0_set_loc0_ne by discriminate.
  rewrite ET. cbn [mbind result_bind]. rewrite EM. cbn [mbind result_bind].
  rewrite EG. cbn [mbind result_bind]. rewrite EN. cbn [mbind result_bind].
  rewrite EA. cbn [mbind result_bind]. rewrite EB. cbn [mbind result_bind mret result_ret].
  rewrite set_loc0_idem. reflexivity.
Qed.

Lemma fill_calculated_cell_idempotent_witness :
  fill_calculated_cell (scenario_row "GaN" "empty" "700" "H2")
  = Ok (scenario_row "GaN" "empty" "700" "H2").
Proof.
  apply (fill_calculated_cell_idempotent (sample_record "600" "120")).
  reflexivity.
Defined.

Lemma fill_calculated_cell_errors_witness :
  fill_calculated_cell record_without_thickness = Raise (KeyError "Thickness")
  /\ fill_calculated_cell record_number_thickness = Raise AttributeError
  /\ fill_calculated_cell record_without_growth_time = Raise (KeyError "Growth Time")
  /\ fill_calculated_cell record_null_growth_time = Raise AttributeError.
Proof.
  split; [|split; [|split]].
  - apply (fill_calculated_cell_errors record_without_thickness). reflexivity.
  - apply (proj1 (proj2 (fill_calculated_cell_errors record_number_thickness))
             (Raw (Obj "600"))); [reflexivity | discriminate].
  - apply (proj2 (proj2 (fill_calculated_cell_errors record_without_growth_time)) "600");
      reflexivity.
  - apply (proj2 (proj2 (fill_calculated_cell_errors record_null_growth_time)) "600"
             eq_refl eq_refl) with (v := Raw Null); [reflexivity | discriminate].
Defined.



(** ** The scan, lines 95-100 *)

(** X8: a scan that returns has only appended.  The headers and values it
    was given stay in front; the headers it added are exactly the GrowthRun
    labels that contain a scan substring; the values it added do not
    outnumber the headers it added. *)
Theorem scan_appends (gr : frame cell) hs vs hs1 vs1 :
  scan gr (hs, vs) = Ok (hs1, vs1) ->
  exists hs' vs',
    hs1 = hs ++ hs'
    /\ vs1 = vs ++ vs'
    /\ length vs' <= length hs'
    /\ forall h, h ∈ hs' <-> h ∈ column_names gr /\ is_matched h = true.
Proof.
  rewrite scan_closed_form. intros [= <- <-].
  exists (scan_headers gr), (scan_values gr).
  split; [reflexivity|]. split; [reflexivity|]. split; [apply scan_lengths_le|].
  intros h. split.
  - intros Hin. split; [|eapply scan_headers_matched; exact Hin].
    unfold scan_headers in Hin. apply list_elem_of_bind in Hin as (k & Hh & Hk).
    apply list_elem_of_fmap in Hh as (q & -> & _). exact Hk.
  - intros [Hin Hm]. unfold scan_headers. apply list_elem_of_bind.
    exists h. split; [|exact Hin].
    apply is_matched_spec in Hm. destruct (matching_quantities h); [congruence|]. left.
Qed.

Lemma scan_appends_witness :
  exists hs' vs',
    ["Thickness"; "Growth Rate"; "Bubbler Material TMGa"; "Partial Pressure NH3"]
      = ["Thickness"; "Growth Rate"] ++ hs'
    /\ [Raw (Str "600"); Raw (Str "put calc here"); Raw (Obj "20"); Raw (Obj "0.5")]
       = [Raw (Str "600"); Raw (Str "put calc here")] ++ vs'
    /\ length vs' <= length hs'
    /\ forall h, h ∈ hs' <->
         h ∈ column_names (growth_run matched_workbook) /\ is_matched h = true.
Proof.
  apply (scan_appends (growth_run matched_workbook)). reflexivity.
Defined.

(** ** The record, lines 107-110 *)

Lemma singleton_columns_zip (hs : list string) (vs : list value) :
  (fun kv : string * value => (kv.1, [kv.2])) <$> zip hs vs
  = zip hs ((fun v => [v]) <$> vs).
Proof.
  revert vs. induction hs as [|h hs IH]; intros [|v vs]; simpl; [reflexivity..|].
  rewrite IH. reflexivity.
Qed.

(** X9: distinct headers that all have a value give a faithful record: its
    columns are the headers in order, and the value at a position is found
    under the header at that position. *)
Theorem record_faithful hs vs :
  NoDup hs ->
  length hs <= length vs ->
  new_dataframe hs vs = zip hs ((fun v => [v]) <$> vs)
  /\ column_names (new_dataframe hs vs) = hs
  /\ forall i h v, hs !! i = Some h -> vs !! i = Some v ->
       loc0 (new_dataframe hs vs) h = Ok v.
Proof.
  intros Hnd Hlen.
  assert ((zip hs vs).*1 = hs) as Hkeys by (apply fst_zip; exact Hlen).
  assert (summary_dict hs vs = zip hs vs) as Hdict.
  { unfold summary_dict. apply dict_of_pairs_NoDup. rewrite Hkeys. exact Hnd. }
  split; [|split].
  - unfold new_dataframe. rewrite Hdict. apply singleton_columns_zip.
  - rewrite column_names_new_dataframe, Hdict. exact Hkeys.
  - intros i h v Hh Hv. unfold loc0, getitem.
    rewrite (new_dataframe_positional hs vs i h v Hh Hv); [reflexivity|].
    intros Hin%elem_of_drop_take.
    apply list_elem_of_lookup in Hin as [j Hj]. rewrite lookup_drop in Hj.
    pose proof (NoDup_lookup _ _ _ _ Hnd Hh Hj). lia.
Qed.

Lemma record_faithful_witness :
  new_dataframe sample_headers sample_values
    = zip sample_headers ((fun v => [v]) <$> sample_values)
  /\ column_names (new_dataframe sample_headers sample_values) = sample_headers
  /\ forall i h v, sample_headers !! i = Some h -> sample_values !! i = Some v ->
       loc0 (new_dataframe sample_headers sample_values) h = Ok v.
Proof.
  apply (record_faithful sample_headers sample_values).
  - apply (bool_decide_unpack _). vm_compute. exact I.
  - simpl. lia.
Defined.

Lemma ncols_record hs vs :
  ncols (new_dataframe hs vs) = length (summary_dict hs vs).*1.
Proof.
  unfold ncols. rewrite <- column_names_new_dataframe. unfold column_names.
  rewrite length_fmap. reflexivity.
Qed.

Lemma record_keys_bounded hs vs :
  (summary_dict hs vs).*1 ⊆+ take (length vs) hs.
Proof.
  apply NoDup_submseteq; [apply dict_of_pairs_NoDup_keys|].
  intros h Hh. apply (proj1 (dict_of_pairs_keys _ _)) in Hh.
  rewrite zip_keys in Hh. exact Hh.
Qed.

(** The record is as wide as the header list only for distinct headers that
    all have a value. *)
Lemma record_width hs vs :
  ncols (new_dataframe hs vs) = length hs <-> NoDup hs /\ length hs <= length vs.
Proof.
  pose proof (record_keys_bounded hs vs) as Hsub.
  pose proof (submseteq_length _ _ Hsub) as Hle. rewrite length_take in Hle.
  rewrite ncols_record. split.
  - intros Heq. assert (length hs <= length vs) as Hlen by lia.
    split; [|exact Hlen]. rewrite take_ge in Hsub by exact Hlen.
    apply submseteq_length_Permutation in Hsub; [|lia].
    rewrite <- Hsub. apply dict_of_pairs_NoDup_keys.
  - intros [Hnd Hlen]. unfold summary_dict.
    rewrite dict_of_pairs_NoDup; rewrite fst_zip by exact Hlen; [reflexivity | exact Hnd].
Qed.

(** X10: the record has as many columns as there are headers exactly when
    the headers are distinct and each of them has a value.  A repeated header
    or a missing value leaves it with fewer columns than there are headers. *)
Theorem record_column_count hs vs :
  (ncols (new_dataframe hs vs) = length hs <-> NoDup hs /\ length hs <= length vs)
  /\ ncols (new_dataframe hs vs) <= length hs
  /\ (ncols (new_dataframe hs vs) < length hs <-> ~ NoDup hs \/ length vs < length hs).
Proof.
  pose proof (submseteq_length _ _ (record_keys_bounded hs vs)) as Hle.
  rewrite length_take, <- ncols_record in Hle.
  pose proof (record_width hs vs) as Hiff.
  split; [exact Hiff|]. split; [lia|]. split.
  - intros Hlt. destruct (decide (NoDup hs)) as [Hnd|Hnd]; [|left; exact Hnd].
    right. destruct (decide (length hs <= length vs)) as [Hlen|Hlen]; [|lia].
    pose proof (proj2 Hiff (conj Hnd Hlen)). lia.
  - intros Hbad. assert (ncols (new_dataframe hs vs) <> length hs); [|lia].
    intros Heq. apply Hiff in Heq as [Hnd Hlen]. destruct Hbad; [contradiction | lia].
Qed.

(** ** The assembler, lines 85-105 *)

(** Tries the nine fixed positions. *)
Ltac fixed_field wb :=
  first
    [ apply (assembled_fixed_field wb 0); [reflexivity | reflexivity | lia | reflexivity | |]
    | apply (assembled_fixed_field wb 1); [reflexivity | reflexivity | lia | reflexivity | |]
    | apply (assembled_fixed_field wb 2); [reflexivity | reflexivity | lia | reflexivity | |]
    | apply (assembled_fixed_field wb 3); [reflexivity | reflexivity | lia | reflexivity | |]
    | apply (assembled_fixed_field wb 4); [reflexivity | reflexivity | lia | reflexivity | |]
    | apply (assembled_fixed_field wb 5); [reflexivity | reflexivity | lia | reflexivity | |]
    | apply (assembled_fixed_field wb 6); [reflexivity | reflexivity | lia | reflexivity | |]
    | apply (assembled_fixed_field wb 7); [reflexivity | reflexivity | lia | reflexivity | |]
    | apply (assembled_fixed_field wb 8); [reflexivity | reflexivity | lia | reflexivity | |] ];
  simpl; not_in_list.

(** X11: whatever the scan does, the nine fixed fields in front are safe.
    In the record built from any assembled lists, each Overview field and
    "Thickness" hold the text [fill_column] extracted for them and "Growth
    Rate" holds its placeholder: a missing scan value shifts only what comes
    after the scan. *)
Theorem assembled_fixed_fields wb hs vs :
  assemble wb = Ok (hs, vs) ->
  (forall h, h ∈ overview_headers ->
     loc0 (new_dataframe hs vs) h = Ok (Raw (Str (extracted (overview wb) h))))
  /\ loc0 (new_dataframe hs vs) "Thickness"
     = Ok (Raw (Str (extracted (afm_reflectance_sem wb) "Thickness")))
  /\ loc0 (new_dataframe hs vs) "Growth Rate" = Ok (Raw (Str "put calc here")).
Proof.
  intros (_ & -> & ->)%assemble_Ok. split; [|split].
  - intros h Hh. unfold overview_headers in Hh.
    repeat (apply elem_of_cons in Hh as [->|Hh]; [fixed_field wb|]).
    apply elem_of_nil in Hh. destruct Hh.
  - fixed_field wb.
  - fixed_field wb.
Qed.

Lemma assembled_fixed_fields_witness :
  (forall h, h ∈ overview_headers ->
     loc0 (new_dataframe desync_headers desync_values) h
     = Ok (Raw (Str (extracted (overview desync_workbook) h))))
  /\ loc0 (new_dataframe desync_headers desync_values) "Thickness"
     = Ok (Raw (Str (extracted (afm_reflectance_sem desync_workbook) "Thickness")))
  /\ loc0 (new_dataframe desync_headers desync_values) "Growth Rate"
     = Ok (Raw (Str "put calc here")).
Proof.
  apply (assembled_fixed_fields desync_workbook desync_headers desync_values).
  reflexivity.
Defined.

(** X12: the lists the assembler returns.  There are at least twelve values
    and never more values than headers; the first nine headers and the last
    three are the fixed ones. *)
Theorem assemble_bounds wb hs vs :
  assemble wb = Ok (hs, vs) ->
  12 <= length vs
  /\ length vs <= length hs
  /\ take 9 hs = overview_headers ++ ["Thickness"; "Growth Rate"]
  /\ drop (length hs - 3) hs = ["Phase"; "Collaborator"; "Notes"].
Proof.
  intros (_ & -> & ->)%assemble_Ok.
  pose proof (scan_lengths_le (growth_run wb) (column_names (growth_run wb))) as Hle.
  fold (scan_values (growth_run wb)) in Hle. fold (scan_headers (growth_run wb)) in Hle.
  unfold assembled_headers, assembled_values.
  rewrite !length_app, length_fmap. simpl length.
  split; [lia|]. split; [lia|]. split; [reflexivity|].
  rewrite !app_assoc. apply drop_app_length'. rewrite !length_app. simpl. lia.
Qed.

Lemma assemble_bounds_witness :
  12 <= length desync_values
  /\ length desync_values <= length desync_headers
  /\ take 9 desync_headers = overview_headers ++ ["Thickness"; "Growth Rate"]
  /\ drop (length desync_headers - 3) desync_headers = ["Phase"; "Collaborator"; "Notes"].
Proof.
  apply (assemble_bounds desync_workbook desync_headers desync_values).
  reflexivity.
Defined.

(** ** [generate_overview], lines 79-121 *)

(** X13: what a run that returns has found.  When [generate_overview]
    returns, the sheets had the columns the script indexes by name, and the
    two texts it divides, if [str.isnumeric] accepted both, were decimal
    digits denoting at most 2^64 - 1. *)
Theorem generate_overview_returned wb (fs fs' : directory) :
  generate_overview wb fs = Ok fs' ->
  well_formed wb
  /\ (isnumeric (extracted (afm_reflectance_sem wb) "Thickness")
      && isnumeric (extracted (overview wb) "Growth Time") = true ->
      parses (extracted (afm_reflectance_sem wb) "Thickness")
      && parses (extracted (overview wb) "Growth Time") = true).
Proof.
  unfold generate_overview. intros H. apply bind_Ok in H as ([hs vs] & Has & H).
  pose proof (assemble_Ok _ _ _ Has) as (Hwf & -> & ->). split; [exact Hwf|].
  cbn [fst snd] in H.
  rewrite (fill_calculated_cell_text _ _ _ (assembled_thickness wb)
             (assembled_growth_time wb)) in H.
  intros Hnum. rewrite Hnum in H.
  destruct (_ && _); [reflexivity | discriminate H].
Qed.

Lemma generate_overview_returned_witness :
  well_formed sample_workbook
  /\ (isnumeric (extracted (afm_reflectance_sem sample_workbook) "Thickness")
      && isnumeric (extracted (overview sample_workbook) "Growth Time") = true ->
      parses (extracted (afm_reflectance_sem sample_workbook) "Thickness")
      && parses (extracted (overview sample_workbook) "Growth Time") = true).
Proof.
  apply (generate_overview_returned sample_workbook ∅
           (<["summary_12cols.xlsx" := scenario_row "GaN" "empty" "700" "H2"]> ∅)).
  reflexivity.
Defined.

(** X15: what a run leaves in the working directory.  A call that returns
    has written one file, named after a header count of at least twelve;
    every other file is as it was. *)
Theorem generate_overview_directory wb (fs fs' : directory) :
  generate_overview wb fs = Ok fs' ->
  exists n,
    12 <= n
    /\ is_Some (fs' !! summary_filename n)
    /\ forall path, path <> summary_filename n -> fs' !! path = fs !! path.
Proof.
  unfold generate_overview. intros H.
  apply bind_Ok in H as ([hs vs] & Has & H). apply bind_Ok in H as (new & _ & H).
  injection H as <-. cbn [fst]. exists (length hs).
  pose proof (assemble_Ok _ _ _ Has) as (_ & Hhs & Hvs).
  split.
  { rewrite Hhs. unfold assembled_headers. rewrite !length_app. simpl. lia. }
  unfold merge, write_excel_file.
  destruct (fs !! summary_filename (length hs)) as [prior|];
    [destruct (Nat.eqb _ _)|];
    (split; [rewrite lookup_insert_eq; eauto
            | intros path Hp; apply lookup_insert_ne; congruence]).
Qed.

Lemma generate_overview_directory_witness :
  exists n,
    12 <= n
    /\ is_Some (<["summary_12cols.xlsx" := scenario_row "GaN" "empty" "700" "H2"]>
                  (∅ : directory) !! summary_filename n)
    /\ forall path, path <> summary_filename n ->
         <["summary_12cols.xlsx" := scenario_row "GaN" "empty" "700" "H2"]>
           (∅ : directory) !! path = (∅ : directory) !! path.
Proof.
  apply (generate_overview_directory sample_workbook ∅). reflexivity.
Defined.

Lemma append_cancel_l (p s1 s2 : string) : (p ++ s1 = p ++ s2)%string -> s1 = s2.
Proof.
  induction p as [|c p IH]; simpl; [auto|]. intros [= H]. auto.
Qed.

Lemma length_append (s1 s2 : string) :
  String.length (s1 ++ s2)%string = String.length s1 + String.length s2.
Proof.
  induction s1 as [|c s1 IH]; simpl; [reflexivity|]. rewrite IH. reflexivity.
Qed.

Lemma append_cancel_r (t s1 s2 : string) : (s1 ++ t = s2 ++ t)%string -> s1 = s2.
Proof.
  revert s2. induction s1 as [|c s1 IH]; intros [|d s2] H; cbn [String.append] in H.
  - reflexivity.
  - apply (f_equal String.length) in H. rewrite !length_append in H.
    simpl in H. lia.
  - apply (f_equal String.length) in H. rewrite !length_append in H.
    simpl in H. lia.
  - simpl in H. injection H as -> H. f_equal. auto.
Qed.

(** X16: the file name determines the header count.  Two header counts give
    the same summary file only when they are equal, so a run never writes the
    summary file of another width. *)
Theorem summary_filename_inj n m :
  summary_filename n = summary_filename m <-> n = m.
Proof.
  split; [|intros ->; reflexivity].
  unfold summary_filename, string_of_nat. intros H.
  apply append_cancel_l, append_cancel_r in H.
  apply (f_equal NilEmpty.uint_of_string) in H. rewrite !NilEmpty.usu in H.
  injection H as H. apply (f_equal Nat.of_uint) in H.
  rewrite !Unsigned.of_to in H. exact H.
Qed.

Lemma fill_columns_missing (sheet : frame cell) headers summary :
  for_each (fun s h => fill_column s sheet h) headers summary =
    match filter (fun h => h ∉ column_names sheet) headers with
    | h :: _ => Raise (KeyError h)
    | [] => Ok (summary ++ ((fun h => Raw (Str (extracted sheet h))) <$> headers))
    end.
Proof.
  revert summary. induction headers as [|h headers IH]; intros summary.
  - simpl. rewrite app_nil_r. reflexivity.
  - cbn [for_each]. destruct (decide (h ∈ column_names sheet)) as [Hin|Hout].
    + rewrite filter_cons_False by (intros Hn; exact (Hn Hin)).
      rewrite (fill_column_extracted _ _ _ Hin). cbn [mbind result_bind].
      rewrite IH. destruct (filter _ headers); [|reflexivity].
      rewrite fmap_cons, <- app_assoc. reflexivity.
    + rewrite filter_cons_True by exact Hout.
      rewrite fill_column_absent by (apply find_column_None; exact Hout). reflexivity.
Qed.

Lemma filter_missing_nil (names headers : list string) :
  filter (fun h => h ∉ names) headers = [] <-> headers ⊆ names.
Proof.
  split.
  - intros Hnil h Hh. apply dec_stable. intros Hout.
    exact (filter_nil_not_elem_of _ _ _ Hnil Hout Hh).
  - intros Hsub. destruct (filter _ headers) as [|h l] eqn:E; [reflexivity|].
    assert (h ∈ filter (fun h => h ∉ names) headers) as Hh by (rewrite E; left).
    apply list_elem_of_filter in Hh as [Hout Hin]. destruct (Hout (Hsub _ Hin)).
Qed.

(** X14: a missing column.  When a sheet lacks a column the script indexes
    by name, [generate_overview] raises [KeyError] for the first such column
    in the order it reads them (the seven Overview fields, "Thickness",
    "Phase", "Collaborator") and writes nothing; no column is missing exactly
    on the workbooks that have them all. *)
Theorem generate_overview_key_error wb (fs : directory) :
  (forall h, first_missing wb = Some h -> generate_overview wb fs = Raise (KeyError h))
  /\ (first_missing wb = None <-> well_formed wb).
Proof.
  unfold first_missing, well_formed. split.
  - intros h Hh. unfold generate_overview, assemble. rewrite fill_columns_missing.
    destruct (filter _ overview_headers) as [|k l] eqn:E.
    + cbn [mbind result_bind].
      destruct (decide ("Thickness" ∈ _)) as [Ht|Ht].
      * rewrite (fill_column_extracted _ _ _ Ht). cbn [mbind result_bind].
        rewrite scan_closed_form. cbn [mbind result_bind fst snd].
        destruct (decide ("Phase" ∈ _)) as [Hp|Hp].
        -- rewrite (fill_column_extracted _ _ _ Hp). cbn [mbind result_bind].
           destruct (decide ("Collaborator" ∈ _)) as [Hc|Hc]; [discriminate Hh|].
           injection Hh as <-.
           rewrite fill_column_absent by (apply find_column_None; exact Hc). reflexivity.
        -- injection Hh as <-.
           rewrite fill_column_absent by (apply find_column_None; exact Hp). reflexivity.
      * injection Hh as <-.
        rewrite fill_column_absent by (apply find_column_None; exact Ht). reflexivity.
    + injection Hh as <-. reflexivity.
  - rewrite <- filter_missing_nil.
    destruct (filter _ overview_headers) as [|k l].
    + repeat case_decide; split; try discriminate; try tauto.
    + split; [discriminate | intros [? _]; discriminate].
Qed.

Lemma generate_overview_key_error_witness :
  generate_overview incomplete_workbook ∅ = Raise (KeyError "Film").
Proof.
  apply (proj1 (generate_overview_key_error incomplete_workbook ∅)). reflexivity.
Defined.

(** ** The merge, lines 112-121 *)

Lemma column_names_concat (a b : frame value) :
  column_names (concat a b)
  = column_names a ++ filter (fun h => h ∉ column_names a) (column_names b).
Proof.
  unfold concat, column_names at 1. rewrite <- list_fmap_compose.
  apply list_fmap_id.
Qed.

(** X18: an append keeps the table well formed.  From two tables with
    distinct labels and columns of one length it builds a table with distinct
    labels and columns of one length, whose rows number the rows of both. *)
Theorem concat_wf (a b : frame value) :
  wf_frame a -> wf_frame b ->
  wf_frame (concat a b) /\ nrows (concat a b) = nrows a + nrows b.
Proof.
  intros [Hna Hra] [Hnb Hrb].
  assert (nrows (concat a b) = nrows a + nrows b) as Hrows.
  { destruct a as [|ka a'] eqn:Ea.
    - destruct b as [|[k col] b']; [reflexivity|].
      unfold concat. simpl column_names.
      rewrite filter_cons_True by apply not_elem_of_nil.
      rewrite app_nil_l, fmap_cons. cbn [nrows]. unfold column_or_missing.
      cbn [find_column]. rewrite String.eqb_refl. reflexivity.
    - rewrite <- Ea. apply nrows_concat; [congruence | exact Hrb]. }
  split; [|exact Hrows]. split.
  - rewrite column_names_concat. apply NoDup_app. split; [exact Hna|]. split.
    + intros h Hin [Hout _]%list_elem_of_filter. contradiction.
    + apply NoDup_filter. exact Hnb.
  - rewrite Hrows. unfold concat. apply Forall_fmap, Forall_forall.
    intros h _. simpl. rewrite length_app, !length_column_or_missing by assumption.
    reflexivity.
Qed.

Lemma concat_wf_witness :
  wf_frame (concat prior_summary (scenario_row "GaN" "empty" "700" "H2"))
  /\ nrows (concat prior_summary (scenario_row "GaN" "empty" "700" "H2"))
     = nrows prior_summary + nrows (scenario_row "GaN" "empty" "700" "H2").
Proof.
  apply (concat_wf prior_summary (scenario_row "GaN" "empty" "700" "H2")).
  - exact prior_summary_wf.
  - split; [apply (bool_decide_unpack _); vm_compute; exact I | repeat constructor].
Defined.

(** [fill_calculated_cell] adds no column to an assembled record. *)
Lemma assembled_columns_kept wb hs vs new :
  assemble wb = Ok (hs, vs) ->
  fill_calculated_cell (new_dataframe hs vs) = Ok new ->
  ncols new = ncols (new_dataframe hs vs).
Proof.
  intros Has Hcalc.
  assert (forall df : frame value, ncols df = length (column_names df)) as Hn.
  { intros df. unfold ncols, column_names. rewrite length_fmap. reflexivity. }
  destruct (fill_calculated_cell_cases _ _ Hcalc) as [->|[q ->]]; [reflexivity|].
  apply assemble_Ok in Has as (_ & -> & ->).
  assert (loc0 (new_dataframe (assembled_headers wb) (assembled_values wb)) "Growth Rate"
          = Ok (Raw (Str "put calc here"))) as Hgr by fixed_field wb.
  unfold loc0, getitem in Hgr.
  destruct (find_column _ "Growth Rate") as [col|] eqn:E; [|discriminate Hgr].
  rewrite !Hn, (column_names_set_loc0 _ _ _ _ E). reflexivity.
Qed.

(** X19: a run that finds the summary file of an earlier run.  When the
    file named after the header count holds a table with as many columns as
    the record of this experiment has (what an earlier run of the same
    experiment left, however its cells read back), the run appends its row
    only when the headers are distinct and each has a value; with a repeated
    header or a missing scan value the table has fewer columns than there are
    headers, and the run writes the record alone, dropping the prior rows. *)
Theorem generate_overview_rerun wb (fs : directory) hs vs new prior :
  assemble wb = Ok (hs, vs) ->
  fill_calculated_cell (new_dataframe hs vs) = Ok new ->
  fs !! summary_filename (length hs) = Some prior ->
  ncols prior = ncols new ->
  (NoDup hs /\ length hs <= length vs ->
     generate_overview wb fs
     = Ok (<[summary_filename (length hs) := concat prior new]> fs))
  /\ (~ (NoDup hs /\ length hs <= length vs) ->
     generate_overview wb fs = Ok (<[summary_filename (length hs) := new]> fs)).
Proof.
  intros Has Hcalc Hfs Hsame.
  pose proof (assembled_columns_kept _ _ _ _ Has Hcalc) as Hcols.
  unfold generate_overview. rewrite Has. cbn [mbind result_bind fst snd].
  rewrite Hcalc. cbn [mbind result_bind mret result_ret].
  unfold merge, write_excel_file. rewrite Hfs, Hsame, Hcols. split.
  - intros Hok. apply record_width in Hok. rewrite Hok, Nat.eqb_refl. reflexivity.
  - intros Hbad. destruct (Nat.eqb_spec (ncols (new_dataframe hs vs)) (length hs))
      as [Heq|Hneq]; [|reflexivity].
    exfalso. apply Hbad, record_width. exact Heq.
Qed.

Lemma generate_overview_rerun_witness :
  generate_overview desync_workbook (<["summary_13cols.xlsx" := desync_row]> ∅)
  = Ok (<["summary_13cols.xlsx" := desync_row]>
          (<["summary_13cols.xlsx" := desync_row]> ∅)).
Proof.
  apply (generate_overview_rerun desync_workbook
           (<["summary_13cols.xlsx" := desync_row]> ∅)
           desync_headers desync_values desync_row desync_row eq_refl eq_refl
           (lookup_insert_eq _ _ _) eq_refl).
  intros [_ Hlen]. simpl in Hlen. lia.
Defined.
